(** * traj_generator: the orchestration node of [traj_generator.py]

    A shallow embedding of [TrajGeneratorNode]: the ROS 2 messages the node
    builds, the rclpy primitives it calls (as a state monad over an
    instrumented transport that records every interaction in order), the
    node's methods and callbacks, and the executor that delivers future
    completions.  The theorems are about the recorded history of a run. *)

From Stdlib Require Import List String ZArith Bool Arith Lia.
From Stdlib Require Import Floats.
Import ListNotations.

#[local] Set Warnings "-inexact-float".
#[local] Open Scope string_scope.
#[local] Open Scope list_scope.

(** ** ROS 2 messages

    Python floats are binary64 values: a decimal literal of the source is
    the primitive float nearest to it.  A freshly constructed message has
    every numeric field at zero, every string and sequence empty, and a
    quaternion at the identity (w = 1), as the message definitions of
    builtin_interfaces, std_msgs, geometry_msgs, nav_msgs, people_msgs and
    nav2_msgs give them. *)

Module Time.
Record t := mk { sec : Z; nanosec : Z }.
Definition default : t := mk 0 0.
End Time.

Module Duration.
Record t := mk { sec : Z; nanosec : Z }.
Definition default : t := mk 0 0.
End Duration.

Module Header.
Record t := mk { stamp : Time.t; frame_id : string }.
Definition default : t := mk Time.default "".
Definition set_stamp (v : Time.t) (h : t) : t := mk v (frame_id h).
Definition set_frame_id (v : string) (h : t) : t := mk (stamp h) v.
End Header.

Module Point.
Record t := mk { x : float; y : float; z : float }.
Definition default : t := mk 0 0 0.
Definition set_x (v : float) (p : t) : t := mk v (y p) (z p).
Definition set_y (v : float) (p : t) : t := mk (x p) v (z p).
Definition set_z (v : float) (p : t) : t := mk (x p) (y p) v.
End Point.

Module Quaternion.
Record t := mk { x : float; y : float; z : float; w : float }.
Definition default : t := mk 0 0 0 1.
Definition set_x (v : float) (q : t) : t := mk v (y q) (z q) (w q).
Definition set_y (v : float) (q : t) : t := mk (x q) v (z q) (w q).
Definition set_z (v : float) (q : t) : t := mk (x q) (y q) v (w q).
Definition set_w (v : float) (q : t) : t := mk (x q) (y q) (z q) v.
End Quaternion.

Module Pose.
Record t := mk { position : Point.t; orientation : Quaternion.t }.
Definition default : t := mk Point.default Quaternion.default.
Definition on_position (f : Point.t -> Point.t) (p : t) : t :=
    mk (f (position p)) (orientation p).
Definition on_orientation (f : Quaternion.t -> Quaternion.t) (p : t) : t :=
    mk (position p) (f (orientation p)).
End Pose.

Module PoseStamped.
Record t := mk { header : Header.t; pose : Pose.t }.
Definition default : t := mk Header.default Pose.default.
Definition on_header (f : Header.t -> Header.t) (p : t) : t :=
    mk (f (header p)) (pose p).
Definition on_pose (f : Pose.t -> Pose.t) (p : t) : t :=
    mk (header p) (f (pose p)).
End PoseStamped.

Module PoseWithCovariance.
Record t := mk { pose : Pose.t; covariance : list float }.
Definition default : t := mk Pose.default (repeat 0%float 36).
Definition on_pose (f : Pose.t -> Pose.t) (p : t) : t :=
    mk (f (pose p)) (covariance p).
Definition set_covariance (v : list float) (p : t) : t := mk (pose p) v.
End PoseWithCovariance.

Module PoseWithCovarianceStamped.
Record t := mk { header : Header.t; pose : PoseWithCovariance.t }.
Definition default : t := mk Header.default PoseWithCovariance.default.
Definition on_header (f : Header.t -> Header.t) (p : t) : t :=
    mk (f (header p)) (pose p).
Definition on_pose (f : PoseWithCovariance.t -> PoseWithCovariance.t) (p : t) : t :=
    mk (header p) (f (pose p)).
End PoseWithCovarianceStamped.

Module Path.
Record t := mk { header : Header.t; poses : list PoseStamped.t }.
Definition default : t := mk Header.default [].
End Path.

Module Person.
Record t := mk { name : string; position : Point.t; velocity : Point.t;
  reliability : float; tagnames : list string; tags : list string }.
Definition default : t := mk "" Point.default Point.default 0 [] [].
Definition set_name (v : string) (p : t) : t :=
    mk v (position p) (velocity p) (reliability p) (tagnames p) (tags p).
Definition on_position (f : Point.t -> Point.t) (p : t) : t :=
    mk (name p) (f (position p)) (velocity p) (reliability p) (tagnames p) (tags p).
Definition on_velocity (f : Point.t -> Point.t) (p : t) : t :=
    mk (name p) (position p) (f (velocity p)) (reliability p) (tagnames p) (tags p).
End Person.

Module People.
Record t := mk { header : Header.t; people : list Person.t }.
Definition default : t := mk Header.default [].
Definition on_header (f : Header.t -> Header.t) (m : t) : t :=
    mk (f (header m)) (people m).
Definition append (p : Person.t) (m : t) : t := mk (header m) (people m ++ [p]).
End People.

(** nav2_msgs/srv/SetInitialPose, request part. *)
Module SetInitialPose.
Module Request.
Record t := mk { pose : PoseWithCovarianceStamped.t }.
Definition default : t := mk PoseWithCovarianceStamped.default.
Definition on_pose (f : PoseWithCovarianceStamped.t -> PoseWithCovarianceStamped.t)
    (r : t) : t := mk (f (pose r)).
End Request.
End SetInitialPose.

(** nav2_msgs/action/ComputePathThroughPoses, goal and result. *)
Module ComputePathThroughPoses.
Module Goal.
Record t := mk { goals : list PoseStamped.t; start : PoseStamped.t;
  planner_id : string; use_start : bool }.
Definition default : t := mk [] PoseStamped.default "" false.
Definition set_goals (v : list PoseStamped.t) (g : t) : t :=
  mk v (start g) (planner_id g) (use_start g).
Definition append_goal (p : PoseStamped.t) (g : t) : t :=
  mk (goals g ++ [p]) (start g) (planner_id g) (use_start g).
End Goal.
Module Result.
Record t := mk { path : Path.t; planning_time : Duration.t }.
End Result.
End ComputePathThroughPoses.

(** nav2_msgs/action/SmoothPath, goal and result. *)
Module SmoothPath.
Module Goal.
Record t := mk { path : Path.t; smoother_id : string;
  max_smoothing_duration : Duration.t; check_for_collisions : bool }.
Definition default : t := mk Path.default "" Duration.default false.
Definition set_path (v : Path.t) (g : t) : t :=
  mk v (smoother_id g) (max_smoothing_duration g) (check_for_collisions g).
End Goal.
Module Result.
Record t := mk { path : Path.t; smoothing_duration : Duration.t;
  was_completed : bool }.
End Result.
End SmoothPath.

(** ** The instrumented transport

    Everything the node exchanges with rclpy is recorded, in order, in the
    history of the [World]: outbound calls with their arguments, the answers
    of the blocking availability waits, and the completion notifications the
    executor delivers. *)

Inductive ActionType := ComputePathThroughPosesT | SmoothPathT.

Definition ActionType_eqb (a b : ActionType) : bool :=
  match a, b with
  | ComputePathThroughPosesT, ComputePathThroughPosesT => true
  | SmoothPathT, SmoothPathT => true
  | _, _ => false
  end.

Record ActionClient := mkActionClient { action_type : ActionType; action_name : string }.
Record ServiceClient := mkServiceClient { srv_name : string }.
Record Publisher := mkPublisher { topic : string }.

Inductive Severity := INFO | ERROR.

Definition Future := nat.

Inductive Message := PeopleMsg (m : People.t) | PathMsg (p : Path.t).

Inductive Goal :=
| ComputeGoal (g : ComputePathThroughPoses.Goal.t)
| SmoothGoal (g : SmoothPath.Goal.t).

(** What [future.result().result] of a get_result future holds. *)
Inductive ActionResult :=
| ComputeResult (r : ComputePathThroughPoses.Result.t)
| SmoothResult (r : SmoothPath.Result.t).

(** [result.path]: both result types have the field. *)
Definition result_path (r : ActionResult) : Path.t :=
  match r with
  | ComputeResult r => ComputePathThroughPoses.Result.path r
  | SmoothResult r => SmoothPath.Result.path r
  end.

Definition result_type (r : ActionResult) : ActionType :=
  match r with
  | ComputeResult _ => ComputePathThroughPosesT
  | SmoothResult _ => SmoothPathT
  end.

(** The ClientGoalHandle a send_goal future resolves to. *)
Record GoalHandle := mkGoalHandle { gh_action : ActionType; accepted : bool }.

(** A completion the executor is asked to deliver. *)
Inductive Event :=
| ServiceResponse (f : Future)
| GoalResponse (f : Future) (acc : bool)
| ResultReady (f : Future) (r : ActionResult).

(** The kind of future a delivered completion resolved: the call_async
    future, a send_goal future or a get_result future of an action. *)
Inductive FutureKind := KService | KGoal (a : ActionType) | KResult (a : ActionType).

Inductive Entry :=
| Log (s : Severity) (msg : string)
| WaitForService (c : ServiceClient) (timeout_sec : float) (answer : bool)
| CallAsync (c : ServiceClient) (req : SetInitialPose.Request.t) (f : Future)
| Publish (p : Publisher) (m : Message)
| WaitForServer (c : ActionClient) (timeout_sec : float) (answer : bool)
| SendGoal (c : ActionClient) (g : Goal) (f : Future)
| GetResult (a : ActionType) (f : Future)
| Recv (k : FutureKind) (ev : Event)
| DestroyNode
| Shutdown.

(** The done-callbacks of the node, by the kind of future they are added to. *)
Inductive GoalCallback := CB_compute_path_through_poses_response | CB_smooth_path_response.
Inductive ResultCallback := CB_on_path_computed | CB_on_path_smoothed.

Inductive Pending :=
| PendingResponse
| PendingGoal (a : ActionType) (cbs : list GoalCallback)
| PendingResult (a : ActionType) (cbs : list ResultCallback).

(** The remote side, as far as the node's blocking calls see it. *)
Record Env := mkEnv {
  service_available : nat -> bool;      (* answer of the k-th wait_for_service probe *)
  server_available : ActionType -> bool; (* answer of wait_for_server on that action,
                                            the same whenever it is asked *)
  clock_now : Time.t                     (* get_clock().now().to_msg() *)
}.

Record World := mkWorld {
  history : list Entry;
  futures : list (Future * Pending);   (* futures not yet done *)
  next_future : Future;
  probes : nat;                        (* wait_for_service probes made so far *)
  context_ok : bool;                   (* rclpy.ok() *)
  node_destroyed : bool
}.

Definition world0 : World := mkWorld [] [] 0 0 true false.

(** ** A state monad over the world *)

Definition M (A : Type) : Type := World -> A * World.

Definition ret {A} (a : A) : M A := fun w => (a, w).
Definition bind {A B} (c : M A) (k : A -> M B) : M B :=
  fun w => k (fst (c w)) (snd (c w)).

Declare Scope m_scope.
Delimit Scope m_scope with M.
Notation "x <- c ;; k" := (bind c (fun x => k))
  (at level 61, c at next level, right associativity) : m_scope.
Notation "c ;; k" := (bind c (fun _ => k))
  (at level 61, right associativity) : m_scope.
#[local] Open Scope m_scope.

Definition exec {A} (c : M A) (w : World) : World := snd (c w).

Definition emit (e : Entry) : M unit := fun w =>
  (tt, mkWorld (history w ++ [e]) (futures w) (next_future w) (probes w)
               (context_ok w) (node_destroyed w)).

Definition new_future (p : Pending) : M Future := fun w =>
  (next_future w,
   mkWorld (history w) (futures w ++ [(next_future w, p)]) (S (next_future w))
           (probes w) (context_ok w) (node_destroyed w)).

Definition set_futures (fs : list (Future * Pending)) : M unit := fun w =>
  (tt, mkWorld (history w) fs (next_future w) (probes w) (context_ok w) (node_destroyed w)).

Fixpoint lookup_future (f : Future) (fs : list (Future * Pending)) : option Pending :=
  match fs with
  | [] => None
  | (f', p) :: fs' => if Nat.eqb f f' then Some p else lookup_future f fs'
  end.

Fixpoint remove_future (f : Future) (fs : list (Future * Pending)) : list (Future * Pending) :=
  match fs with
  | [] => []
  | (f', p) :: fs' => if Nat.eqb f f' then fs' else (f', p) :: remove_future f fs'
  end.

Fixpoint update_future (f : Future) (g : Pending -> Pending) (fs : list (Future * Pending))
    : list (Future * Pending) :=
  match fs with
  | [] => []
  | (f', p) :: fs' =>
      if Nat.eqb f f' then (f', g p) :: fs' else (f', p) :: update_future f g fs'
  end.

(** ** rclpy primitives *)

Section Node.

Variable env : Env.

Definition wait_for_service (c : ServiceClient) (timeout_sec : float) : M bool := fun w =>
  let b := service_available env (probes w) in
  (b, mkWorld (history w ++ [WaitForService c timeout_sec b]) (futures w) (next_future w)
              (S (probes w)) (context_ok w) (node_destroyed w)).

Definition call_async (c : ServiceClient) (req : SetInitialPose.Request.t) : M Future :=
  f <- new_future PendingResponse ;;
  emit (CallAsync c req f) ;;
  ret f.

Definition publish (p : Publisher) (m : Message) : M unit := emit (Publish p m).

Definition clock_now_to_msg : M Time.t := ret (clock_now env).

Definition wait_for_server (c : ActionClient) (timeout_sec : float) : M bool :=
  let b := server_available env (action_type c) in
  emit (WaitForServer c timeout_sec b) ;;
  ret b.

Definition send_goal_async (c : ActionClient) (g : Goal) : M Future :=
  f <- new_future (PendingGoal (action_type c) []) ;;
  emit (SendGoal c g f) ;;
  ret f.

Definition get_result_async (h : GoalHandle) : M Future :=
  f <- new_future (PendingResult (gh_action h) []) ;;
  emit (GetResult (gh_action h) f) ;;
  ret f.

Definition add_goal_done_callback (f : Future) (cb : GoalCallback) : M unit := fun w =>
  set_futures
    (update_future f
       (fun p => match p with PendingGoal a cbs => PendingGoal a (cbs ++ [cb]) | _ => p end)
       (futures w)) w.

Definition add_result_done_callback (f : Future) (cb : ResultCallback) : M unit := fun w =>
  set_futures
    (update_future f
       (fun p => match p with PendingResult a cbs => PendingResult a (cbs ++ [cb]) | _ => p end)
       (futures w)) w.

Definition get_logger_info (msg : string) : M unit := emit (Log INFO msg).
Definition get_logger_error (msg : string) : M unit := emit (Log ERROR msg).

Definition destroy_node : M unit := fun w =>
  (tt, mkWorld (history w ++ [DestroyNode]) (futures w) (next_future w) (probes w)
               (context_ok w) true).

Definition rclpy_shutdown : M unit := fun w =>
  (tt, mkWorld (history w ++ [Shutdown]) (futures w) (next_future w) (probes w)
               false (node_destroyed w)).

(** ** TrajGeneratorNode *)

Definition initial_pose_client : ServiceClient := mkServiceClient "/set_initial_pose".
Definition path_action_client : ActionClient :=
  mkActionClient ComputePathThroughPosesT "/compute_path_through_poses".
Definition smooth_path_client : ActionClient := mkActionClient SmoothPathT "/smooth_path".
Definition plan_publisher : Publisher := mkPublisher "/plan".
Definition people_publisher : Publisher := mkPublisher "/people".

(** [request.pose.pose.pose] *)
Definition on_request_pose (f : Pose.t -> Pose.t) : SetInitialPose.Request.t -> SetInitialPose.Request.t :=
  SetInitialPose.Request.on_pose
    (PoseWithCovarianceStamped.on_pose (PoseWithCovariance.on_pose f)).

Definition initial_pose_covariance : list float :=
  [ 0.25; 0.0; 0.0; 0.0; 0.0; 0.0;
    0.0; 0.25; 0.0; 0.0; 0.0; 0.0;
    0.0; 0.0; 0.0; 0.0; 0.0; 0.0;
    0.0; 0.0; 0.0; 0.0; 0.0; 0.0;
    0.0; 0.0; 0.0; 0.0; 0.0; 0.0;
    0.0; 0.0; 0.0; 0.0; 0.0; 0.0 ]%float.

Definition initial_pose_request : SetInitialPose.Request.t :=
  let request := SetInitialPose.Request.default in
  let request := SetInitialPose.Request.on_pose
      (PoseWithCovarianceStamped.on_header (Header.set_frame_id "map")) request in
  let request := on_request_pose (Pose.on_position (Point.set_x 0.0)) request in
  let request := on_request_pose (Pose.on_position (Point.set_y 4.0)) request in
  let request := on_request_pose (Pose.on_position (Point.set_z 0.01)) request in
  let request := on_request_pose (Pose.on_orientation (Quaternion.set_x 0.0)) request in
  let request := on_request_pose (Pose.on_orientation (Quaternion.set_y 0.0)) request in
  let request := on_request_pose (Pose.on_orientation (Quaternion.set_z (-0.7071068))) request in
  let request := on_request_pose (Pose.on_orientation (Quaternion.set_w 0.7071068)) request in
  SetInitialPose.Request.on_pose
    (PoseWithCovarianceStamped.on_pose
       (PoseWithCovariance.set_covariance initial_pose_covariance)) request.

Definition set_initial_pose : M unit :=
  call_async initial_pose_client initial_pose_request ;;
  get_logger_info "Set initial pose called".

Definition people_message (stamp : Time.t) : People.t :=
  let msg := People.default in
  let msg := People.on_header (Header.set_frame_id "map") msg in
  let msg := People.on_header (Header.set_stamp stamp) msg in
  let person := Person.default in
  let person := Person.set_name "person1" person in
  let person := Person.on_position (Point.set_x 0.0) person in
  let person := Person.on_position (Point.set_y 0.0) person in
  let person := Person.on_position (Point.set_z 0.0) person in
  let person := Person.on_velocity (Point.set_x 0.0) person in
  let person := Person.on_velocity (Point.set_y 1.0) person in
  let person := Person.on_velocity (Point.set_z 0.0) person in
  People.append person msg.

Definition publish_people : M unit :=
  stamp <- clock_now_to_msg ;;
  publish people_publisher (PeopleMsg (people_message stamp)) ;;
  get_logger_info "Published people message".

(** The body of the [for x, y in ...] loop of compute_path_through_poses. *)
Definition append_waypoint (goal_msg : ComputePathThroughPoses.Goal.t) (xy : float * float)
    : ComputePathThroughPoses.Goal.t :=
  let (x, y) := xy in
  let pose_stamped := PoseStamped.default in
  let pose_stamped := PoseStamped.on_header (Header.set_frame_id "map") pose_stamped in
  let pose_stamped := PoseStamped.on_pose (Pose.on_position (Point.set_x x)) pose_stamped in
  let pose_stamped := PoseStamped.on_pose (Pose.on_position (Point.set_y y)) pose_stamped in
  let pose_stamped :=
    PoseStamped.on_pose (Pose.on_orientation (Quaternion.set_z (-0.7071068))) pose_stamped in
  let pose_stamped :=
    PoseStamped.on_pose (Pose.on_orientation (Quaternion.set_w 0.7071068)) pose_stamped in
  ComputePathThroughPoses.Goal.append_goal pose_stamped goal_msg.

Definition waypoints : list (float * float) := [(0.0, 2.0); (-0.8, 0.0)]%float.

Definition path_goal : ComputePathThroughPoses.Goal.t :=
  let goal_msg := ComputePathThroughPoses.Goal.default in
  let goal_msg := ComputePathThroughPoses.Goal.set_goals [] goal_msg in
  fold_left append_waypoint waypoints goal_msg.

Definition compute_path_through_poses : M unit :=
  ready <- wait_for_server path_action_client 10.0 ;;
  if negb ready then
    get_logger_error "ComputePathThroughPoses action server not available!"
  else
    get_logger_info "Sending goal to ComputePathThroughPoses" ;;
    send_goal_future <- send_goal_async path_action_client (ComputeGoal path_goal) ;;
    add_goal_done_callback send_goal_future CB_compute_path_through_poses_response.

Definition compute_path_through_poses_response (goal_handle : GoalHandle) : M unit :=
  if negb (accepted goal_handle) then
    get_logger_error "ComputePathThroughPoses goal was rejected!"
  else
    get_logger_info "ComputePathThroughPoses goal accepted!" ;;
    get_result_future <- get_result_async goal_handle ;;
    add_result_done_callback get_result_future CB_on_path_computed.

Definition smooth_path (path : Path.t) : M unit :=
  ready <- wait_for_server smooth_path_client 10.0 ;;
  if negb ready then
    get_logger_error "SmoothPath action server not available!"
  else
    let goal_msg := SmoothPath.Goal.default in
    let goal_msg := SmoothPath.Goal.set_path path goal_msg in
    get_logger_info "Sending path to SmoothPath" ;;
    send_goal_future <- send_goal_async smooth_path_client (SmoothGoal goal_msg) ;;
    add_goal_done_callback send_goal_future CB_smooth_path_response.

Definition on_path_computed (result : ActionResult) : M unit :=
  get_logger_info "Path computed successfully! Sending to SmoothPath" ;;
  smooth_path (result_path result).

Definition smooth_path_response (goal_handle : GoalHandle) : M unit :=
  if negb (accepted goal_handle) then
    get_logger_error "SmoothPath goal was rejected!"
  else
    get_logger_info "SmoothPath goal accepted!" ;;
    get_result_future <- get_result_async goal_handle ;;
    add_result_done_callback get_result_future CB_on_path_smoothed.

Definition shutdown : M unit :=
  get_logger_info "Destroying node and shutting down" ;;
  destroy_node ;;
  rclpy_shutdown.

Definition on_path_smoothed (result : ActionResult) : M unit :=
  get_logger_info "Path smoothed successfully! Publishing to /plan" ;;
  publish plan_publisher (PathMsg (result_path result)) ;;
  get_logger_info "Smoothed path published to /plan" ;;
  get_logger_info "Shutting down the node" ;;
  shutdown.

(** The startup loop [while not wait_for_service(timeout_sec=1.0)]; [fuel]
    bounds the number of probes observed, and the result tells whether the
    loop was left. *)
Fixpoint wait_for_initial_pose_service (fuel : nat) : M bool :=
  match fuel with
  | O => ret false
  | S fuel' =>
      ready <- wait_for_service initial_pose_client 1.0 ;;
      if negb ready then
        get_logger_info "/set_initial_pose service not available, waiting..." ;;
        wait_for_initial_pose_service fuel'
      else ret true
  end.

(** [TrajGeneratorNode.__init__]; the result tells whether the constructor
    returned within the observed probes. *)
Definition __init__ (fuel : nat) : M bool :=
  up <- wait_for_initial_pose_service fuel ;;
  if up then
    set_initial_pose ;;
    publish_people ;;
    compute_path_through_poses ;;
    ret true
  else ret false.

(** ** The executor *)

Definition run_goal_callback (cb : GoalCallback) (h : GoalHandle) : M unit :=
  match cb with
  | CB_compute_path_through_poses_response => compute_path_through_poses_response h
  | CB_smooth_path_response => smooth_path_response h
  end.

Definition run_result_callback (cb : ResultCallback) (r : ActionResult) : M unit :=
  match cb with
  | CB_on_path_computed => on_path_computed r
  | CB_on_path_smoothed => on_path_smoothed r
  end.

Fixpoint run_all {C : Type} (run : C -> M unit) (cbs : list C) : M unit :=
  match cbs with
  | [] => ret tt
  | cb :: cbs' => run cb ;; run_all run cbs'
  end.

(** Complete future [f]: it leaves the table, the delivery is recorded, and
    its done-callbacks run.  A completion for a future that is not pending,
    or of the wrong kind for it, is dropped. *)
Definition dispatch (ev : Event) : M unit := fun w =>
  match ev with
  | ServiceResponse f =>
      match lookup_future f (futures w) with
      | Some PendingResponse =>
          (set_futures (remove_future f (futures w)) ;; emit (Recv KService ev)) w
      | _ => (tt, w)
      end
  | GoalResponse f acc =>
      match lookup_future f (futures w) with
      | Some (PendingGoal a cbs) =>
          (set_futures (remove_future f (futures w)) ;;
           emit (Recv (KGoal a) ev) ;;
           run_all (fun cb => run_goal_callback cb (mkGoalHandle a acc)) cbs) w
      | _ => (tt, w)
      end
  | ResultReady f r =>
      match lookup_future f (futures w) with
      | Some (PendingResult a cbs) =>
          if ActionType_eqb (result_type r) a then
            (set_futures (remove_future f (futures w)) ;;
             emit (Recv (KResult a) ev) ;;
             run_all (fun cb => run_result_callback cb r) cbs) w
          else (tt, w)
      | _ => (tt, w)
      end
  end.

(** [rclpy.spin(node)]: deliver completions until the context is shut down. *)
Fixpoint spin (events : list Event) (w : World) : World :=
  match events with
  | [] => w
  | ev :: events' => if context_ok w then spin events' (exec (dispatch ev) w) else w
  end.

(** [main]: construct the node, then spin. *)
Definition main (fuel : nat) (events : list Event) : World :=
  let node := __init__ fuel world0 in
  if fst node then spin events (snd node) else snd node.

End Node.

Definition env_up : Env := mkEnv (fun _ => true) (fun _ => true) (Time.mk 12 34).
Definition P1 : Path.t := Path.mk (Header.mk (Time.mk 1 0) "map") [PoseStamped.default].
Definition P2 : Path.t := Path.mk (Header.mk (Time.mk 2 0) "map") [].
Definition happy_events : list Event :=
  [ GoalResponse 1 true;
    ResultReady 2 (ComputeResult (ComputePathThroughPoses.Result.mk P1 Duration.default));
    ServiceResponse 0;
    GoalResponse 3 true;
    ResultReady 4 (SmoothResult (SmoothPath.Result.mk P2 Duration.default true)) ].

(** An environment whose service answers at the third probe and whose path
    server is down, one whose smoothing server is down, and one whose
    service never answers. *)
Definition env_path_down : Env :=
  mkEnv (fun k => Nat.leb 2 k)
        (fun a => match a with ComputePathThroughPosesT => false | SmoothPathT => true end)
        (Time.mk 0 0).

Definition env_smooth_down : Env :=
  mkEnv (fun _ => true)
        (fun a => match a with ComputePathThroughPosesT => true | SmoothPathT => false end)
        (Time.mk 0 0).

Definition env_never : Env := mkEnv (fun _ => false) (fun _ => true) (Time.mk 0 0).

(** ** Reading a history *)

Definition is_service_recv (e : Entry) : bool :=
  match e with Recv KService _ => true | _ => false end.

Definition is_recv (e : Entry) : bool :=
  match e with Recv _ _ => true | _ => false end.

(** Step 1: the SetInitialPose request. *)
Definition is_set_initial_pose (e : Entry) : bool :=
  match e with CallAsync _ _ _ => true | _ => false end.

(** Step 2: a People publication. *)
Definition is_publish_people (e : Entry) : bool :=
  match e with Publish _ (PeopleMsg _) => true | _ => false end.

(** Steps 3 and 4: anything invoked on the action of type [a]. *)
Definition is_send_goal (a : ActionType) (e : Entry) : bool :=
  match e with SendGoal c _ _ => ActionType_eqb (action_type c) a | _ => false end.

Definition is_invocation (a : ActionType) (e : Entry) : bool :=
  match e with
  | WaitForServer c _ _ => ActionType_eqb (action_type c) a
  | SendGoal c _ _ => ActionType_eqb (action_type c) a
  | GetResult a' _ => ActionType_eqb a' a
  | _ => false
  end.

(** Step 5: a Path publication. *)
Definition is_publish_plan (e : Entry) : bool :=
  match e with Publish _ (PathMsg _) => true | _ => false end.

Definition is_destroy_node (e : Entry) : bool :=
  match e with DestroyNode => true | _ => false end.

Definition is_shutdown (e : Entry) : bool :=
  match e with Shutdown => true | _ => false end.

Definition is_error_log (e : Entry) : bool :=
  match e with Log ERROR _ => true | _ => false end.

(** Completion notifications. *)
Definition is_goal_accepted (a : ActionType) (e : Entry) : bool :=
  match e with Recv (KGoal a') (GoalResponse _ true) => ActionType_eqb a' a | _ => false end.

Definition is_goal_rejected (a : ActionType) (e : Entry) : bool :=
  match e with Recv (KGoal a') (GoalResponse _ false) => ActionType_eqb a' a | _ => false end.

Definition is_result_received (a : ActionType) (e : Entry) : bool :=
  match e with Recv (KResult a') (ResultReady _ _) => ActionType_eqb a' a | _ => false end.

Fixpoint count (c : Entry -> bool) (h : list Entry) : nat :=
  match h with
  | [] => 0
  | e :: h' => (if c e then 1 else 0) + count c h'
  end.

(** Every [b]-entry of [h] comes after some [a]-entry. *)
Definition only_after (a b : Entry -> bool) (h : list Entry) : Prop :=
  forall l1 e l2, h = l1 ++ e :: l2 -> b e = true -> exists e', In e' l1 /\ a e' = true.

Fixpoint only_afterb_from (seen : bool) (a b : Entry -> bool) (h : list Entry) : bool :=
  match h with
  | [] => true
  | e :: h' => (if b e then seen else true) && only_afterb_from (seen || a e) a b h'
  end.

Definition only_afterb (a b : Entry -> bool) (h : list Entry) : bool :=
  only_afterb_from false a b h.

(** The history without the deliveries of the SetInitialPose response, and
    the outbound part of a history. *)
Definition essential (h : list Entry) : list Entry :=
  filter (fun e => negb (is_service_recv e)) h.

Definition outbound (h : list Entry) : list Entry :=
  filter (fun e => negb (is_recv e)) h.

(** The long-running operations outstanding in a world: the actions with a
    send_goal or get_result future that is not yet done. *)
Definition in_flight (w : World) : list ActionType :=
  flat_map (fun fp => match snd fp with
                      | PendingResponse => []
                      | PendingGoal a _ => [a]
                      | PendingResult a _ => [a]
                      end) (futures w).

(** The completions that are not SetInitialPose responses: goal-acceptance
    decisions and result payloads. *)
Definition is_action_event (ev : Event) : bool :=
  match ev with ServiceResponse _ => false | _ => true end.

(** The entries other than the x-variance (index 0) and the y-variance
    (index 7) of a row-major 6x6 covariance. *)
Fixpoint other_entries_from (i : nat) (c : list float) : list float :=
  match c with
  | [] => []
  | v :: c' =>
      if (Nat.eqb i 0 || Nat.eqb i 7)%bool then other_entries_from (S i) c'
      else v :: other_entries_from (S i) c'
  end.

Definition other_entries (c : list float) : list float := other_entries_from 0 c.

Definition is_zero (v : float) : bool := PrimFloat.eqb v 0.

(** ** The phases of a run

    The callback chain visits a fixed sequence of phases; each phase fixes
    the essential history after the startup probes, the action future that
    is pending and the next future id. *)

Inductive Phase :=
| Initializing
| PathServerUnavailable
| AwaitingPathAcceptance
| PathRejected
| AwaitingPathResult
| SmoothServerUnavailable (r1 : ComputePathThroughPoses.Result.t)
| AwaitingSmoothAcceptance (r1 : ComputePathThroughPoses.Result.t)
| SmoothRejected (r1 : ComputePathThroughPoses.Result.t)
| AwaitingSmoothResult (r1 : ComputePathThroughPoses.Result.t)
| Terminated (r1 : ComputePathThroughPoses.Result.t) (r2 : SmoothPath.Result.t).

Section Phases.

Variable env : Env.

Definition seg_start (path_up : bool) : list Entry :=
  [ CallAsync initial_pose_client initial_pose_request 0;
    Log INFO "Set initial pose called";
    Publish people_publisher (PeopleMsg (people_message (clock_now env)));
    Log INFO "Published people message";
    WaitForServer path_action_client 10.0 path_up ].

Definition seg_path_sent : list Entry :=
  [ Log INFO "Sending goal to ComputePathThroughPoses";
    SendGoal path_action_client (ComputeGoal path_goal) 1 ].

Definition seg_path_accepted : list Entry :=
  [ Recv (KGoal ComputePathThroughPosesT) (GoalResponse 1 true);
    Log INFO "ComputePathThroughPoses goal accepted!";
    GetResult ComputePathThroughPosesT 2 ].

Definition seg_path_result (r1 : ComputePathThroughPoses.Result.t) (smooth_up : bool)
    : list Entry :=
  [ Recv (KResult ComputePathThroughPosesT) (ResultReady 2 (ComputeResult r1));
    Log INFO "Path computed successfully! Sending to SmoothPath";
    WaitForServer smooth_path_client 10.0 smooth_up ].

Definition seg_smooth_sent (r1 : ComputePathThroughPoses.Result.t) : list Entry :=
  [ Log INFO "Sending path to SmoothPath";
    SendGoal smooth_path_client
      (SmoothGoal (SmoothPath.Goal.set_path (ComputePathThroughPoses.Result.path r1)
                     SmoothPath.Goal.default)) 3 ].

Definition seg_smooth_accepted : list Entry :=
  [ Recv (KGoal SmoothPathT) (GoalResponse 3 true);
    Log INFO "SmoothPath goal accepted!";
    GetResult SmoothPathT 4 ].

Definition seg_published (r2 : SmoothPath.Result.t) : list Entry :=
  [ Recv (KResult SmoothPathT) (ResultReady 4 (SmoothResult r2));
    Log INFO "Path smoothed successfully! Publishing to /plan";
    Publish plan_publisher (PathMsg (SmoothPath.Result.path r2));
    Log INFO "Smoothed path published to /plan";
    Log INFO "Shutting down the node";
    Log INFO "Destroying node and shutting down";
    DestroyNode;
    Shutdown ].

Definition script (ph : Phase) : list Entry :=
  match ph with
  | Initializing => []
  | PathServerUnavailable =>
      seg_start false
      ++ [Log ERROR "ComputePathThroughPoses action server not available!"]
  | AwaitingPathAcceptance => seg_start true ++ seg_path_sent
  | PathRejected =>
      seg_start true ++ seg_path_sent
      ++ [ Recv (KGoal ComputePathThroughPosesT) (GoalResponse 1 false);
           Log ERROR "ComputePathThroughPoses goal was rejected!" ]
  | AwaitingPathResult => seg_start true ++ seg_path_sent ++ seg_path_accepted
  | SmoothServerUnavailable r1 =>
      seg_start true ++ seg_path_sent ++ seg_path_accepted ++ seg_path_result r1 false
      ++ [Log ERROR "SmoothPath action server not available!"]
  | AwaitingSmoothAcceptance r1 =>
      seg_start true ++ seg_path_sent ++ seg_path_accepted ++ seg_path_result r1 true
      ++ seg_smooth_sent r1
  | SmoothRejected r1 =>
      seg_start true ++ seg_path_sent ++ seg_path_accepted ++ seg_path_result r1 true
      ++ seg_smooth_sent r1
      ++ [ Recv (KGoal SmoothPathT) (GoalResponse 3 false);
           Log ERROR "SmoothPath goal was rejected!" ]
  | AwaitingSmoothResult r1 =>
      seg_start true ++ seg_path_sent ++ seg_path_accepted ++ seg_path_result r1 true
      ++ seg_smooth_sent r1 ++ seg_smooth_accepted
  | Terminated r1 r2 =>
      seg_start true ++ seg_path_sent ++ seg_path_accepted ++ seg_path_result r1 true
      ++ seg_smooth_sent r1 ++ seg_smooth_accepted ++ seg_published r2
  end.

Definition pending_of (ph : Phase) : list (Future * Pending) :=
  match ph with
  | AwaitingPathAcceptance =>
      [(1, PendingGoal ComputePathThroughPosesT [CB_compute_path_through_poses_response])]
  | AwaitingPathResult =>
      [(2, PendingResult ComputePathThroughPosesT [CB_on_path_computed])]
  | AwaitingSmoothAcceptance _ =>
      [(3, PendingGoal SmoothPathT [CB_smooth_path_response])]
  | AwaitingSmoothResult _ =>
      [(4, PendingResult SmoothPathT [CB_on_path_smoothed])]
  | _ => []
  end.

Definition next_of (ph : Phase) : Future :=
  match ph with
  | Initializing => 0
  | PathServerUnavailable => 1
  | AwaitingPathAcceptance | PathRejected => 2
  | AwaitingPathResult | SmoothServerUnavailable _ => 3
  | AwaitingSmoothAcceptance _ | SmoothRejected _ => 4
  | AwaitingSmoothResult _ | Terminated _ _ => 5
  end.

Definition is_terminated (ph : Phase) : bool :=
  match ph with Terminated _ _ => true | _ => false end.

(** What a phase tells about the answers of the availability waits. *)
Definition answers (ph : Phase) : Prop :=
  match ph with
  | Initializing => True
  | PathServerUnavailable => server_available env ComputePathThroughPosesT = false
  | AwaitingPathAcceptance | PathRejected | AwaitingPathResult =>
      server_available env ComputePathThroughPosesT = true
  | SmoothServerUnavailable _ =>
      server_available env ComputePathThroughPosesT = true
      /\ server_available env SmoothPathT = false
  | _ =>
      server_available env ComputePathThroughPosesT = true
      /\ server_available env SmoothPathT = true
  end.

Definition phase_start : Phase :=
  if server_available env ComputePathThroughPosesT then AwaitingPathAcceptance
  else PathServerUnavailable.

Definition phase_step (ph : Phase) (ev : Event) : Phase :=
  match ph, ev with
  | AwaitingPathAcceptance, GoalResponse f acc =>
      if Nat.eqb f 1 then (if acc then AwaitingPathResult else PathRejected) else ph
  | AwaitingPathResult, ResultReady f (ComputeResult r1) =>
      if Nat.eqb f 2 then
        (if server_available env SmoothPathT then AwaitingSmoothAcceptance r1
         else SmoothServerUnavailable r1)
      else ph
  | AwaitingSmoothAcceptance r1, GoalResponse f acc =>
      if Nat.eqb f 3 then (if acc then AwaitingSmoothResult r1 else SmoothRejected r1) else ph
  | AwaitingSmoothResult r1, ResultReady f (SmoothResult r2) =>
      if Nat.eqb f 4 then Terminated r1 r2 else ph
  | _, _ => ph
  end.

Definition phase_run (events : list Event) (ph : Phase) : Phase :=
  fold_left phase_step events ph.

(** The world and the phase agree, after the startup history [pre]. *)
Record Inv (pre : list Entry) (w : World) (ph : Phase) : Prop := mkInv {
  inv_history : essential (history w) = pre ++ script ph;
  inv_futures : futures w = pending_of ph \/ futures w = (0, PendingResponse) :: pending_of ph;
  inv_next : next_future w = next_of ph;
  inv_context : context_ok w = negb (is_terminated ph);
  inv_destroyed : node_destroyed w = is_terminated ph;
  inv_answers : answers ph
}.

End Phases.

(** The startup history when the service answers at probe [n]. *)
Fixpoint startup_log (n : nat) : list Entry :=
  match n with
  | O => [WaitForService initial_pose_client 1.0 true]
  | S n' =>
      WaitForService initial_pose_client 1.0 false
      :: Log INFO "/set_initial_pose service not available, waiting..."
      :: startup_log n'
  end.

Definition is_startup (e : Entry) : bool :=
  match e with
  | WaitForService _ _ _ => true
  | Log INFO _ => true
  | _ => false
  end.

(** The phase a run ends in. *)
Definition main_phase (env : Env) (fuel : nat) (events : list Event) : Phase :=
  if fst (wait_for_initial_pose_service env fuel world0)
  then phase_run env events (phase_start env)
  else Initializing.

(** The history of the startup wait. *)
Definition startup_history (env : Env) (fuel : nat) : list Entry :=
  history (snd (wait_for_initial_pose_service env fuel world0)).

(** Further readings of a history: the startup probes and their log line,
    the availability waits and the result requests of an action. *)
Definition is_wait_for_service (e : Entry) : bool :=
  match e with WaitForService _ _ _ => true | _ => false end.

Definition is_waiting_log (e : Entry) : bool :=
  match e with
  | Log INFO msg => String.eqb msg "/set_initial_pose service not available, waiting..."
  | _ => false
  end.

Definition is_wait_for_server (a : ActionType) (e : Entry) : bool :=
  match e with WaitForServer c _ _ => ActionType_eqb (action_type c) a | _ => false end.

Definition is_get_result (a : ActionType) (e : Entry) : bool :=
  match e with GetResult a' _ => ActionType_eqb a' a | _ => false end.

(** The history of [k] failed startup probes. *)
Fixpoint waiting_log (k : nat) : list Entry :=
  match k with
  | O => []
  | S k' =>
      WaitForService initial_pose_client 1.0 false
      :: Log INFO "/set_initial_pose service not available, waiting..."
      :: waiting_log k'
  end.

(** The phases in which an error was logged. *)
Definition is_failed (ph : Phase) : bool :=
  match ph with
  | PathServerUnavailable | PathRejected | SmoothServerUnavailable _ | SmoothRejected _ => true
  | _ => false
  end.

(** ** Lists of entries *)

Lemma count_app (c : Entry -> bool) (h1 h2 : list Entry) :
  count c (h1 ++ h2) = count c h1 + count c h2.
Proof.
  induction h1 as [|e h1 IH]; simpl; [reflexivity|].
  rewrite IH. lia.
Qed.

Lemma count_none (c : Entry -> bool) (h : list Entry) :
  (forall e, In e h -> c e = false) -> count c h = 0.
Proof.
  induction h as [|e h IH]; simpl; intros H; [reflexivity|].
  rewrite (H e (or_introl eq_refl)), IH; auto.
Qed.

Lemma count_filter (c p : Entry -> bool) (h : list Entry) :
  (forall e, p e = false -> c e = false) -> count c (filter p h) = count c h.
Proof.
  intros H. induction h as [|e h IH]; simpl; [reflexivity|].
  destruct (p e) eqn:Hp; simpl; rewrite IH; [reflexivity|].
  rewrite (H e Hp). reflexivity.
Qed.

Lemma only_afterb_from_app (a b : Entry -> bool) (h1 h2 : list Entry) (seen : bool) :
  (forall e, In e h1 -> a e = false /\ b e = false) ->
  only_afterb_from seen a b (h1 ++ h2) = only_afterb_from seen a b h2.
Proof.
  induction h1 as [|e h1 IH]; simpl; intros H; [reflexivity|].
  destruct (H e (or_introl eq_refl)) as [Ha Hb].
  rewrite Ha, Hb, orb_false_r. simpl. apply IH. auto.
Qed.

Lemma only_afterb_from_filter (a b p : Entry -> bool) (h : list Entry) (seen : bool) :
  (forall e, p e = false -> a e = false /\ b e = false) ->
  only_afterb_from seen a b (filter p h) = only_afterb_from seen a b h.
Proof.
  intros H. revert seen. induction h as [|e h IH]; simpl; intros seen; [reflexivity|].
  destruct (p e) eqn:Hp; simpl.
  - rewrite IH. reflexivity.
  - destruct (H e Hp) as [Ha Hb]. rewrite Ha, Hb, orb_false_r, IH. reflexivity.
Qed.

Lemma only_afterb_from_sound (a b : Entry -> bool) (h : list Entry) (seen : bool) :
  only_afterb_from seen a b h = true ->
  forall l1 e l2, h = l1 ++ e :: l2 -> b e = true ->
    seen = true \/ exists e', In e' l1 /\ a e' = true.
Proof.
  revert seen. induction h as [|x h IH]; intros seen Hb l1 e l2 Heq He.
  - destruct l1; discriminate.
  - simpl in Hb. apply andb_true_iff in Hb as [Hx Hrest].
    destruct l1 as [|y l1]; simpl in Heq; injection Heq as -> ->.
    + rewrite He in Hx. left. exact Hx.
    + destruct (IH _ Hrest l1 e l2 eq_refl He) as [Hs|[e' [Hin Ha]]].
      * apply orb_true_iff in Hs as [Hs|Hs]; [left; exact Hs|].
        right. exists y. split; [left; reflexivity|exact Hs].
      * right. exists e'. split; [right; exact Hin|exact Ha].
Qed.

Lemma only_afterb_sound (a b : Entry -> bool) (h : list Entry) :
  only_afterb a b h = true -> only_after a b h.
Proof.
  intros Hb l1 e l2 Heq He.
  destruct (only_afterb_from_sound a b h false Hb l1 e l2 Heq He) as [Hs|Hs];
    [discriminate|exact Hs].
Qed.

Lemma only_afterb_from_complete (a b : Entry -> bool) (h : list Entry) (seen : bool) :
  (forall l1 e l2, h = l1 ++ e :: l2 -> b e = true ->
     seen = true \/ exists e', In e' l1 /\ a e' = true) ->
  only_afterb_from seen a b h = true.
Proof.
  revert seen. induction h as [|x h IH]; intros seen H; simpl; [reflexivity|].
  apply andb_true_iff. split.
  - destruct (b x) eqn:Hx; [|reflexivity].
    destruct (H [] x h eq_refl Hx) as [Hs|[e' [[] _]]]. exact Hs.
  - apply IH. intros l1 e l2 -> He.
    destruct (H (x :: l1) e l2 eq_refl He) as [Hs|[e' [[<-|Hin] Ha]]].
    + left. rewrite Hs. reflexivity.
    + left. rewrite Ha. apply orb_true_r.
    + right. exists e'. split; assumption.
Qed.

Lemma only_afterb_complete (a b : Entry -> bool) (h : list Entry) :
  only_after a b h -> only_afterb a b h = true.
Proof.
  intros H. apply only_afterb_from_complete.
  intros l1 e l2 Heq He. right. exact (H l1 e l2 Heq He).
Qed.

Lemma essential_app (h1 h2 : list Entry) :
  essential (h1 ++ h2) = essential h1 ++ essential h2.
Proof. apply filter_app. Qed.

Lemma essential_startup (pre : list Entry) :
  forallb is_startup pre = true -> essential pre = pre.
Proof.
  induction pre as [|e pre IH]; simpl; intros H; [reflexivity|].
  apply andb_true_iff in H as [He Hpre].
  destruct e; try discriminate; simpl; rewrite (IH Hpre); reflexivity.
Qed.

Lemma outbound_essential (h : list Entry) : outbound (essential h) = outbound h.
Proof.
  induction h as [|e h IH]; simpl; [reflexivity|].
  destruct e as [| | | | | | |[] ?| |]; simpl; rewrite ?IH; reflexivity.
Qed.

Lemma outbound_startup (pre : list Entry) :
  forallb is_startup pre = true -> outbound pre = pre.
Proof.
  induction pre as [|e pre IH]; simpl; intros H; [reflexivity|].
  apply andb_true_iff in H as [He Hpre].
  destruct e; try discriminate; simpl; rewrite (IH Hpre); reflexivity.
Qed.

Lemma In_essential (e : Entry) (h : list Entry) :
  is_service_recv e = false -> In e h -> In e (essential h).
Proof.
  intros He Hin. apply filter_In. split; [exact Hin|]. rewrite He. reflexivity.
Qed.

Lemma essential_In (e : Entry) (h : list Entry) : In e (essential h) -> In e h.
Proof. intros H. apply filter_In in H. tauto. Qed.

Lemma startup_In (pre : list Entry) (e : Entry) :
  forallb is_startup pre = true -> In e pre -> is_startup e = true.
Proof. intros H Hin. rewrite forallb_forall in H. auto. Qed.

(** ** The startup wait *)

Section Startup.

Variable env : Env.

Lemma wait_loop_frame (fuel : nat) (w : World) :
  let r := wait_for_initial_pose_service env fuel w in
  futures (snd r) = futures w /\ next_future (snd r) = next_future w /\
  context_ok (snd r) = context_ok w /\ node_destroyed (snd r) = node_destroyed w /\
  exists l, history (snd r) = history w ++ l /\ forallb is_startup l = true.
Proof.
  revert w. induction fuel as [|fuel IH]; intros w; simpl.
  - repeat split. exists []. rewrite app_nil_r. split; reflexivity.
  - unfold bind, wait_for_service. simpl.
    destruct (service_available env (probes w)); simpl.
    + repeat split. eexists. split; reflexivity.
    + unfold get_logger_info, emit. simpl.
      match goal with |- context [wait_for_initial_pose_service env fuel ?w'] =>
        destruct (IH w') as (Hf & Hn & Hc & Hd & l & Hh & Hl) end.
      simpl in *. repeat split; try assumption.
      eexists. split; [rewrite Hh, <- !app_assoc; reflexivity|].
      simpl. exact Hl.
Qed.

(** If the service answers at probe [n] and at none before, [n + 1] probes
    leave the loop with the history [startup_log n]. *)
Lemma wait_loop_ready (n fuel : nat) (w : World) :
  (forall k, k < n -> service_available env (probes w + k) = false) ->
  service_available env (probes w + n) = true ->
  n < fuel ->
  fst (wait_for_initial_pose_service env fuel w) = true /\
  history (snd (wait_for_initial_pose_service env fuel w)) = history w ++ startup_log n.
Proof.
  revert fuel w. induction n as [|n IH]; intros fuel w Hlt Hn Hfuel;
    (destruct fuel as [|fuel]; [lia|]); simpl;
    unfold bind, wait_for_service; simpl.
  - rewrite Nat.add_0_r in Hn. rewrite Hn. simpl. split; reflexivity.
  - assert (H0 : service_available env (probes w) = false).
    { rewrite <- (Nat.add_0_r (probes w)). apply Hlt. lia. }
    rewrite H0. simpl. unfold get_logger_info, emit. simpl.
    match goal with |- context [wait_for_initial_pose_service env fuel ?w'] =>
      destruct (IH fuel w') as [Hb Hh] end; simpl.
    + intros k Hk. specialize (Hlt (S k)). rewrite Nat.add_succ_r in Hlt.
      apply Hlt. lia.
    + rewrite Nat.add_succ_r in Hn. exact Hn.
    + lia.
    + split; [exact Hb|]. rewrite Hh. simpl. rewrite <- !app_assoc. reflexivity.
Qed.

(** A probe that succeeds has a first one. *)
Lemma first_ready (n : nat) :
  service_available env n = true ->
  exists m, m <= n /\ service_available env m = true /\
            forall k, k < m -> service_available env k = false.
Proof.
  induction n as [n IH] using lt_wf_ind. intros Hn.
  destruct (forallb (fun k => negb (service_available env k)) (seq 0 n)) eqn:Hall.
  - exists n. split; [lia|]. split; [exact Hn|].
    intros k Hk. rewrite forallb_forall in Hall.
    specialize (Hall k). rewrite in_seq in Hall.
    apply negb_true_iff. apply Hall. lia.
  - assert (Hex : exists k, k < n /\ service_available env k = true).
    { apply not_true_iff_false in Hall.
      destruct (existsb (fun k => service_available env k) (seq 0 n)) eqn:Hex.
      - apply existsb_exists in Hex as [k [Hin Hk]]. apply in_seq in Hin.
        exists k. split; [lia|exact Hk].
      - exfalso. apply Hall. apply forallb_forall. intros k Hin.
        apply negb_true_iff. apply not_true_iff_false. intros Hk.
        apply not_true_iff_false in Hex. apply Hex.
        apply existsb_exists. exists k. split; assumption. }
    destruct Hex as [k [Hk Hav]].
    destruct (IH k Hk Hav) as [m [Hm [Hm1 Hm2]]].
    exists m. split; [lia|]. split; assumption.
Qed.

Lemma constructor_returns (n fuel : nat) :
  service_available env n = true -> n < fuel ->
  fst (wait_for_initial_pose_service env fuel world0) = true.
Proof.
  intros Hn Hfuel. destruct (first_ready n Hn) as [m [Hm [Hm1 Hm2]]].
  apply (wait_loop_ready m fuel world0); simpl; auto. lia.
Qed.

End Startup.

(** ** Every run follows the phases *)

Section Simulation.

Variable env : Env.

Ltac history_goal H :=
  simpl; unfold essential in *; rewrite ?filter_app; simpl; rewrite ?H;
  rewrite <- ?app_assoc; reflexivity.

Lemma startup_history_startup (fuel : nat) :
  forallb is_startup (startup_history env fuel) = true.
Proof.
  unfold startup_history.
  destruct (wait_loop_frame env fuel world0) as (_ & _ & _ & _ & l & -> & Hl).
  exact Hl.
Qed.

Lemma init_returns (fuel : nat) :
  fst (__init__ env fuel world0) = fst (wait_for_initial_pose_service env fuel world0).
Proof.
  unfold __init__, bind.
  destruct (fst (wait_for_initial_pose_service env fuel world0)); reflexivity.
Qed.

Lemma init_inv (fuel : nat) :
  Inv env (startup_history env fuel) (snd (__init__ env fuel world0))
    (if fst (wait_for_initial_pose_service env fuel world0)
     then phase_start env else Initializing).
Proof.
  pose proof (startup_history_startup fuel) as Hpre.
  unfold startup_history in *. unfold __init__, bind.
  destruct (wait_loop_frame env fuel world0) as (Hf & Hn & Hc & Hd & _).
  destruct (wait_for_initial_pose_service env fuel world0) as [up w].
  destruct w as [h fs nf pr ok nd]. simpl in *. subst.
  destruct up; simpl.
  - unfold phase_start.
    destruct (server_available env ComputePathThroughPosesT) eqn:Hup;
      unfold set_initial_pose, publish_people, compute_path_through_poses,
        wait_for_server, bind; simpl; rewrite Hup; simpl;
      constructor; simpl; auto;
      rewrite !essential_app, (essential_startup _ Hpre); simpl;
      rewrite <- !app_assoc; reflexivity.
  - constructor; simpl; auto.
    rewrite (essential_startup _ Hpre), app_nil_r. reflexivity.
Qed.

Lemma dispatch_inv (pre : list Entry) (w : World) (ph : Phase) (ev : Event) :
  Inv env pre w ph -> context_ok w = true ->
  Inv env pre (exec (dispatch env ev) w) (phase_step env ph ev).
Proof.
  intros [Hh Hf Hn Hc Hd Ha] Hok.
  destruct w as [h fs nf pr ok nd]. simpl in *. subst nf ok nd.
  destruct (server_available env SmoothPathT) eqn:Hsm;
    (destruct ev as [f|f [|]|f [r|r]];
     destruct f as [|[|[|[|[|f]]]]];
     destruct ph; try discriminate Hok;
     destruct Hf as [Hf|Hf]; subst fs;
     unfold exec, dispatch, phase_step; simpl; rewrite ?Hsm;
     unfold on_path_computed, on_path_smoothed, smooth_path, shutdown,
       wait_for_server, bind; simpl; rewrite ?Hsm; simpl;
     constructor; simpl; auto; try tauto; history_goal Hh).
Qed.

Lemma phase_run_terminated (events : list Event) (r1 : ComputePathThroughPoses.Result.t)
    (r2 : SmoothPath.Result.t) :
  phase_run env events (Terminated r1 r2) = Terminated r1 r2.
Proof. induction events as [|ev events IH]; [reflexivity|exact IH]. Qed.

Lemma spin_inv (pre : list Entry) (events : list Event) :
  forall w ph, Inv env pre w ph ->
  Inv env pre (spin env events w) (phase_run env events ph).
Proof.
  induction events as [|ev events IH]; intros w ph HI; [exact HI|].
  change (phase_run env (ev :: events) ph)
    with (phase_run env events (phase_step env ph ev)).
  cbn [spin]. destruct (context_ok w) eqn:Hok.
  - apply IH. apply dispatch_inv; assumption.
  - pose proof (inv_context _ _ _ _ HI) as Hc. rewrite Hok in Hc.
    destruct ph; try discriminate Hc.
    cbn [phase_step]. rewrite phase_run_terminated. exact HI.
Qed.

(** The closed form of a run: after the startup history, the essential
    history of [main] is the script of the phase the run ends in. *)
Lemma main_inv (fuel : nat) (events : list Event) :
  Inv env (startup_history env fuel) (main env fuel events) (main_phase env fuel events).
Proof.
  unfold main, main_phase. rewrite init_returns.
  pose proof (init_inv fuel) as HI.
  destruct (fst (wait_for_initial_pose_service env fuel world0)).
  - apply spin_inv. exact HI.
  - exact HI.
Qed.

End Simulation.

(** ** From the script to the history of a run *)

Ltac classifier :=
  let e := fresh "e" in
  let H := fresh "H" in
  intros e H;
  destruct e as [[]? | | | |?| | |[| |]?| |]; simpl in *;
  try discriminate; try reflexivity; try (split; reflexivity).

Section Runs.

Variable env : Env.
Variable fuel : nat.
Variable events : list Event.

Lemma run_count (c : Entry -> bool) :
  (forall e, is_service_recv e = true -> c e = false) ->
  (forall e, is_startup e = true -> c e = false) ->
  count c (history (main env fuel events)) = count c (script env (main_phase env fuel events)).
Proof.
  intros Hs Hp. pose proof (main_inv env fuel events) as HI.
  rewrite <- (count_filter c (fun e => negb (is_service_recv e))).
  - fold (essential (history (main env fuel events))).
    rewrite (inv_history _ _ _ _ HI), count_app, count_none; [reflexivity|].
    intros e Hin. apply Hp.
    exact (startup_In _ e (startup_history_startup env fuel) Hin).
  - intros e He. apply Hs. apply negb_false_iff. exact He.
Qed.

Lemma run_only_afterb (a b : Entry -> bool) :
  (forall e, is_service_recv e = true -> a e = false /\ b e = false) ->
  (forall e, is_startup e = true -> a e = false /\ b e = false) ->
  only_afterb a b (history (main env fuel events))
  = only_afterb a b (script env (main_phase env fuel events)).
Proof.
  intros Hs Hp. pose proof (main_inv env fuel events) as HI. unfold only_afterb.
  rewrite <- (only_afterb_from_filter a b (fun e => negb (is_service_recv e))).
  - fold (essential (history (main env fuel events))).
    rewrite (inv_history _ _ _ _ HI). apply only_afterb_from_app.
    intros e Hin. apply Hp.
    exact (startup_In _ e (startup_history_startup env fuel) Hin).
  - intros e He. apply Hs. apply negb_false_iff. exact He.
Qed.

Lemma run_In (e : Entry) :
  is_service_recv e = false -> is_startup e = false ->
  (In e (history (main env fuel events)) <-> In e (script env (main_phase env fuel events))).
Proof.
  intros Hs Hp. pose proof (main_inv env fuel events) as HI. split; intros Hin.
  - apply (In_essential e _ Hs) in Hin.
    rewrite (inv_history _ _ _ _ HI) in Hin. apply in_app_or in Hin as [Hin|Hin].
    + rewrite (startup_In _ e (startup_history_startup env fuel) Hin) in Hp.
      discriminate.
    + exact Hin.
  - apply essential_In. rewrite (inv_history _ _ _ _ HI). apply in_or_app.
    right. exact Hin.
Qed.

Lemma run_outbound :
  outbound (history (main env fuel events))
  = startup_history env fuel ++ outbound (script env (main_phase env fuel events)).
Proof.
  rewrite <- outbound_essential, (inv_history _ _ _ _ (main_inv env fuel events)).
  unfold outbound. rewrite filter_app. fold (outbound (startup_history env fuel)).
  rewrite (outbound_startup _ (startup_history_startup env fuel)). reflexivity.
Qed.

Lemma phase_step_started (ph : Phase) (ev : Event) :
  ph <> Initializing -> phase_step env ph ev <> Initializing.
Proof.
  intros Hph. destruct ph, ev as [f|f [|]|f [r|r]]; simpl; try assumption;
    try discriminate;
    repeat match goal with
           | |- context [if ?b then _ else _] => destruct b
           end; try assumption; discriminate.
Qed.

Lemma phase_run_started (evs : list Event) (ph : Phase) :
  ph <> Initializing -> phase_run env evs ph <> Initializing.
Proof.
  revert ph. induction evs as [|ev evs IH]; intros ph Hph; [exact Hph|].
  apply (IH (phase_step env ph ev)). apply phase_step_started. exact Hph.
Qed.

(** Once the service has answered, the run has left the startup wait. *)
Lemma main_phase_started (n : nat) :
  service_available env n = true -> n < fuel ->
  main_phase env fuel events <> Initializing.
Proof.
  intros Hn Hfuel. unfold main_phase.
  rewrite (constructor_returns env n fuel Hn Hfuel).
  apply phase_run_started. unfold phase_start.
  destruct (server_available env ComputePathThroughPosesT); discriminate.
Qed.

End Runs.

(** Deliveries of the SetInitialPose response never move the phase. *)
Lemma phase_run_action_events (env : Env) (evs : list Event) (ph : Phase) :
  phase_run env evs ph = phase_run env (filter is_action_event evs) ph.
Proof.
  revert ph. induction evs as [|ev evs IH]; intros ph; [reflexivity|].
  destruct ev as [f|f acc|f r]; simpl.
  - rewrite <- IH. destruct ph; reflexivity.
  - apply IH.
  - apply IH.
Qed.

(** ** The claims *)

(** C1 (as amended).  Steps 1 to 3 are invoked in order by the constructor
    itself, with no completion notification in between: in a run whose
    startup wait has ended and whose path server is up, the SetInitialPose
    request, the People message and the ComputePathThroughPoses goal have
    all gone out before anything was delivered.  From step 3 on the chain is
    callback-driven: the result of an action is delivered only after its
    acceptance, anything invoked on SmoothPath comes after the
    ComputePathThroughPoses result was received, and the plan is published
    only after the SmoothPath result was received.  The SetInitialPose
    response gates nothing at any step: two runs that are delivered the same
    goal responses and results have the same outbound history, wherever the
    SetInitialPose response arrives in either, and whether it arrives at
    all. *)
Theorem steps_chained_from_step_3 (env : Env) (fuel : nat) (events : list Event) :
  let h := history (main env fuel events) in
  (only_after is_set_initial_pose is_publish_people h /\
   only_after is_publish_people (is_invocation ComputePathThroughPosesT) h /\
   only_after (is_send_goal ComputePathThroughPosesT)
              (is_goal_accepted ComputePathThroughPosesT) h /\
   only_after (is_goal_accepted ComputePathThroughPosesT)
              (is_result_received ComputePathThroughPosesT) h /\
   only_after (is_result_received ComputePathThroughPosesT) (is_invocation SmoothPathT) h /\
   only_after (is_send_goal SmoothPathT) (is_goal_accepted SmoothPathT) h /\
   only_after (is_goal_accepted SmoothPathT) (is_result_received SmoothPathT) h /\
   only_after (is_result_received SmoothPathT) is_publish_plan h) /\
  (forall n, service_available env n = true -> n < fuel ->
     server_available env ComputePathThroughPosesT = true ->
     let h0 := history (main env fuel []) in
     count is_recv h0 = 0 /\ count is_set_initial_pose h0 = 1 /\
     count is_publish_people h0 = 1 /\
     count (is_send_goal ComputePathThroughPosesT) h0 = 1) /\
  (forall events',
     filter is_action_event events' = filter is_action_event events ->
     outbound (history (main env fuel events')) = outbound (history (main env fuel events))).
Proof.
  split; [|split].
  - repeat split; apply only_afterb_sound; rewrite run_only_afterb by classifier;
      destruct (main_phase env fuel events); reflexivity.
  - intros n Hn Hfuel Hup h0. subst h0.
    assert (Hph : main_phase env fuel [] = AwaitingPathAcceptance).
    { unfold main_phase. rewrite (constructor_returns env n fuel Hn Hfuel).
      unfold phase_start. rewrite Hup. reflexivity. }
    assert (Hrecv : count is_recv (history (main env fuel [])) = 0).
    { unfold main. rewrite init_returns, (constructor_returns env n fuel Hn Hfuel).
      simpl. pose proof (init_inv env fuel) as HI0.
      rewrite (constructor_returns env n fuel Hn Hfuel) in HI0.
      unfold phase_start in HI0. rewrite Hup in HI0.
      unfold __init__, bind in *.
      rewrite (constructor_returns env n fuel Hn Hfuel) in *.
      destruct (wait_loop_frame env fuel world0) as (_ & _ & _ & _ & l & Hl & Hst).
      unfold set_initial_pose, publish_people, compute_path_through_poses,
        wait_for_server, bind. simpl. rewrite Hup. simpl. rewrite Hl. simpl.
      rewrite !count_app. simpl. rewrite count_none; [reflexivity|].
      intros e Hin. pose proof (startup_In _ e Hst Hin) as He.
      destruct e as [[]?| | | | | | | | |]; try discriminate; reflexivity. }
    split; [exact Hrecv|].
    repeat split; rewrite run_count by classifier; rewrite Hph; reflexivity.
  - intros events' Hevs. rewrite !run_outbound. unfold main_phase.
    rewrite (phase_run_action_events env events'), Hevs, <- phase_run_action_events.
    reflexivity.
Qed.

Lemma steps_chained_from_step_3_witness :
  count is_recv (history (main env_up 1 [])) = 0 /\
  count (is_send_goal ComputePathThroughPosesT) (history (main env_up 1 [])) = 1 /\
  outbound (history (main env_up 1 (filter is_action_event happy_events)))
  = outbound (history (main env_up 1 happy_events)).
Proof.
  destruct (steps_chained_from_step_3 env_up 1 happy_events) as (_ & H & Hfree).
  destruct (H 0 eq_refl (le_n 1) eq_refl) as (H1 & _ & _ & H2).
  split; [exact H1|]. split; [exact H2|].
  apply Hfree. reflexivity.
Defined.

(** C1 (as stated) fails at steps 1 and 2: with every endpoint up and the
    SetInitialPose response delivered as the first completion, the People
    message and the ComputePathThroughPoses goal are already out when the
    response is received. *)
Lemma steps_1_and_2_not_gated :
  let h := history (main env_up 1 [ServiceResponse 0]) in
  count is_service_recv h = 1 /\
  ~ only_after is_service_recv is_publish_people h /\
  ~ only_after is_service_recv (is_send_goal ComputePathThroughPosesT) h.
Proof.
  split; [reflexivity|].
  split; intros H; apply only_afterb_complete in H; vm_compute in H; discriminate H.
Qed.

(** C2.  In every run in which the rejection of the ComputePathThroughPoses
    goal is delivered, the callback logs the error and returns: the error
    log is the last entry of the essential history, nothing is ever invoked
    on SmoothPath, no path is published, and no operation is left in
    flight. *)
Theorem path_goal_rejected_halts (env : Env) (fuel : nat) (events : list Event)
    (f : Future) :
  let w := main env fuel events in
  In (Recv (KGoal ComputePathThroughPosesT) (GoalResponse f false)) (history w) ->
  (exists l, essential (history w)
             = l ++ [ Recv (KGoal ComputePathThroughPosesT) (GoalResponse f false);
                      Log ERROR "ComputePathThroughPoses goal was rejected!" ]) /\
  In (Log ERROR "ComputePathThroughPoses goal was rejected!") (history w) /\
  count (is_invocation SmoothPathT) (history w) = 0 /\
  count is_publish_plan (history w) = 0 /\
  in_flight w = [] /\ context_ok w = true.
Proof.
  intros w Hin. subst w.
  pose proof (main_inv env fuel events) as HI.
  apply run_In in Hin; [|reflexivity|reflexivity].
  rewrite (run_In env fuel events (Log ERROR _)) by reflexivity.
  rewrite !run_count by classifier.
  unfold in_flight. rewrite (inv_context _ _ _ _ HI).
  destruct (main_phase env fuel events); simpl in Hin;
    repeat match goal with
           | H : _ \/ _ |- _ => destruct H
           | H : False |- _ => destruct H
           | H : @eq Entry _ _ |- _ => discriminate H || (injection H as <-)
           end.
  split; [|split; [|split; [|split; [|split]]]]; try reflexivity.
  - exists (startup_history env fuel ++ seg_start env true ++ seg_path_sent).
    rewrite (inv_history _ _ _ _ HI). simpl. rewrite <- !app_assoc. reflexivity.
  - simpl. tauto.
  - destruct (inv_futures _ _ _ _ HI) as [-> | ->]; reflexivity.
Qed.

Lemma path_goal_rejected_halts_witness :
  count is_publish_plan (history (main env_up 1 [GoalResponse 1 false])) = 0.
Proof.
  refine (proj1 (proj2 (proj2 (proj2
    (path_goal_rejected_halts env_up 1 [GoalResponse 1 false] 1 _))))).
  vm_compute. tauto.
Defined.

(** C3.  In every run whose startup wait has ended and in which the
    ComputePathThroughPoses server is not available within the 10 second
    wait, that wait is the last call of the orchestration: the error is
    logged right after it, no goal is sent, nothing is invoked on
    SmoothPath and no path is published. *)
Theorem path_server_timeout_halts (env : Env) (n fuel : nat) (events : list Event) :
  service_available env n = true -> n < fuel ->
  server_available env ComputePathThroughPosesT = false ->
  let w := main env fuel events in
  (exists l, outbound (history w)
             = l ++ [ WaitForServer path_action_client 10.0 false;
                      Log ERROR "ComputePathThroughPoses action server not available!" ]) /\
  In (Log ERROR "ComputePathThroughPoses action server not available!") (history w) /\
  count (is_send_goal ComputePathThroughPosesT) (history w) = 0 /\
  count (is_invocation SmoothPathT) (history w) = 0 /\
  count is_publish_plan (history w) = 0 /\
  in_flight w = [] /\ context_ok w = true.
Proof.
  intros Hn Hfuel Hdown w. subst w.
  pose proof (main_inv env fuel events) as HI.
  pose proof (main_phase_started env fuel events n Hn Hfuel) as Hst.
  rewrite (run_In env fuel events (Log ERROR _)) by reflexivity.
  rewrite !run_count by classifier. rewrite run_outbound.
  unfold in_flight. rewrite (inv_context _ _ _ _ HI).
  pose proof (inv_answers _ _ _ _ HI) as Ha.
  destruct (main_phase env fuel events); simpl in Ha;
    try congruence; try (destruct Ha; congruence).
  split; [|split; [|split; [|split; [|split; [|split]]]]]; try reflexivity.
  - exists (startup_history env fuel ++
            [ CallAsync initial_pose_client initial_pose_request 0;
              Log INFO "Set initial pose called";
              Publish people_publisher (PeopleMsg (people_message (clock_now env)));
              Log INFO "Published people message" ]).
    simpl. rewrite <- !app_assoc. reflexivity.
  - simpl. tauto.
  - destruct (inv_futures _ _ _ _ HI) as [-> | ->]; reflexivity.
Qed.

Lemma path_server_timeout_halts_witness :
  count (is_invocation SmoothPathT) (history (main env_path_down 5 happy_events)) = 0 /\
  count is_publish_plan (history (main env_path_down 5 happy_events)) = 0.
Proof.
  destruct (path_server_timeout_halts env_path_down 2 5 happy_events
              eq_refl ltac:(lia) eq_refl) as (_ & _ & _ & H1 & H2 & _).
  split; assumption.
Defined.

Ltac split_in H :=
  simpl in H;
  repeat match goal with
         | H' : _ \/ _ |- _ => destruct H'
         | H' : False |- _ => destruct H'
         | H' : @eq Entry _ _ |- _ =>
             discriminate H' || (injection H'; clear H'; intros; subst)
         end.

Ltac in_list := simpl; repeat (first [left; reflexivity | right]).

(** Solves [exists l, pre ++ tail = l ++ suffix] for concrete [tail], [suffix]. *)
Ltac suffix_goal :=
  simpl;
  match goal with
  | |- exists l, ?pre ++ ?tail = l ++ ?suf =>
      exists (pre ++ firstn (List.length tail - List.length suf) tail);
      rewrite <- app_assoc; simpl; reflexivity
  end.

(** C4.  The path is passed through.  Every SmoothPath goal of a run is a
    default goal whose path field is the path of the ComputePathThroughPoses
    result that was received, and every path published is published to
    /plan and is the path field of the SmoothPath result that was received;
    conversely a received ComputePathThroughPoses result is forwarded (when
    the smoothing server is up) and a received SmoothPath result is
    published.  Each of these happens at most once in a run. *)
Theorem path_passed_through (env : Env) (fuel : nat) (events : list Event) :
  let h := history (main env fuel events) in
  (forall c g f, In (SendGoal c (SmoothGoal g) f) h ->
     c = smooth_path_client /\
     exists f' r,
       In (Recv (KResult ComputePathThroughPosesT) (ResultReady f' (ComputeResult r))) h /\
       g = SmoothPath.Goal.set_path (ComputePathThroughPoses.Result.path r)
             SmoothPath.Goal.default /\
       SmoothPath.Goal.path g = ComputePathThroughPoses.Result.path r) /\
  (forall p m, In (Publish p (PathMsg m)) h ->
     p = plan_publisher /\
     exists f' r,
       In (Recv (KResult SmoothPathT) (ResultReady f' (SmoothResult r))) h /\
       m = SmoothPath.Result.path r) /\
  (forall f' r,
     In (Recv (KResult ComputePathThroughPosesT) (ResultReady f' (ComputeResult r))) h ->
     server_available env SmoothPathT = true ->
     exists f, In (SendGoal smooth_path_client
                     (SmoothGoal (SmoothPath.Goal.set_path
                                    (ComputePathThroughPoses.Result.path r)
                                    SmoothPath.Goal.default)) f) h) /\
  (forall f' r,
     In (Recv (KResult SmoothPathT) (ResultReady f' (SmoothResult r))) h ->
     In (Publish plan_publisher (PathMsg (SmoothPath.Result.path r))) h) /\
  count (is_result_received ComputePathThroughPosesT) h <= 1 /\
  count (is_send_goal SmoothPathT) h <= 1 /\
  count (is_result_received SmoothPathT) h <= 1 /\
  count is_publish_plan h <= 1.
Proof.
  intros h. subst h.
  pose proof (run_In env fuel events) as Hrun.
  pose proof (inv_answers _ _ _ _ (main_inv env fuel events)) as Ha.
  rewrite !run_count by classifier.
  destruct (main_phase env fuel events); simpl in Ha;
    (split;
     [ intros c g f Hin; (apply Hrun in Hin; [|reflexivity..]); split_in Hin;
       (split; [reflexivity|]; do 2 eexists;
        split; [apply Hrun; [reflexivity|reflexivity|in_list]|split; reflexivity])
     | split;
       [ intros p m Hin; (apply Hrun in Hin; [|reflexivity..]); split_in Hin;
         (split; [reflexivity|]; do 2 eexists;
          split; [apply Hrun; [reflexivity|reflexivity|in_list]|reflexivity])
       | split;
         [ intros f' r Hin Hup; (apply Hrun in Hin; [|reflexivity..]); split_in Hin;
           try (destruct Ha; congruence);
           (eexists; apply Hrun; [reflexivity|reflexivity|in_list])
         | split;
           [ intros f' r Hin; (apply Hrun in Hin; [|reflexivity..]); split_in Hin;
             (apply Hrun; [reflexivity|reflexivity|in_list])
           | repeat split; simpl; lia ]]]]).
Qed.

Lemma path_passed_through_witness :
  In (Publish plan_publisher (PathMsg P2)) (history (main env_up 1 happy_events)) /\
  exists f, In (SendGoal smooth_path_client
                  (SmoothGoal (SmoothPath.Goal.set_path P1 SmoothPath.Goal.default)) f)
               (history (main env_up 1 happy_events)).
Proof.
  destruct (path_passed_through env_up 1 happy_events) as (_ & _ & H3 & H4 & _).
  split.
  - apply (H4 4 (SmoothPath.Result.mk P2 Duration.default true)).
    vm_compute. tauto.
  - apply (H3 2 (ComputePathThroughPoses.Result.mk P1 Duration.default)).
    + vm_compute. tauto.
    + reflexivity.
Defined.

(** C5.  Shutdown happens exactly when the smoothed path has been
    published.  The node is destroyed and the context shut down as often as
    a path is published, at most once; when it is, the outbound history
    ends with the publish followed at once by the shutdown, and nothing
    comes after it.  It does happen: as soon as the SmoothPath result is
    received its path is published, the node destroyed and the context shut
    down, in that order and with only log lines in between.  Every failure
    (an availability wait answered false, a goal rejected) logs exactly one
    error; and when an error is logged it is the last outbound entry, the
    node is not destroyed, the context stays up and no operation is left in
    flight. *)
Theorem shutdown_iff_published (env : Env) (fuel : nat) (events : list Event) :
  let w := main env fuel events in
  let h := history w in
  (count is_destroy_node h = count is_publish_plan h /\
   count is_shutdown h = count is_publish_plan h /\
   count is_publish_plan h <= 1 /\
   node_destroyed w = Nat.eqb (count is_publish_plan h) 1 /\
   context_ok w = negb (node_destroyed w)) /\
  (forall p m, In (Publish p (PathMsg m)) h ->
     exists l, outbound h
               = l ++ [ Publish plan_publisher (PathMsg m);
                        Log INFO "Smoothed path published to /plan";
                        Log INFO "Shutting down the node";
                        Log INFO "Destroying node and shutting down";
                        DestroyNode;
                        Shutdown ]) /\
  (forall c t, In (WaitForServer c t false) h -> count is_error_log h = 1) /\
  (forall a f, In (Recv (KGoal a) (GoalResponse f false)) h -> count is_error_log h = 1) /\
  (forall msg, In (Log ERROR msg) h ->
     (exists l, outbound h = l ++ [Log ERROR msg]) /\
     count is_destroy_node h = 0 /\ count is_shutdown h = 0 /\
     count is_publish_plan h = 0 /\
     node_destroyed w = false /\ context_ok w = true /\ in_flight w = []) /\
  (forall f r, In (Recv (KResult SmoothPathT) (ResultReady f (SmoothResult r))) h ->
     (exists l, outbound h
                = l ++ [ Log INFO "Path smoothed successfully! Publishing to /plan";
                         Publish plan_publisher (PathMsg (SmoothPath.Result.path r));
                         Log INFO "Smoothed path published to /plan";
                         Log INFO "Shutting down the node";
                         Log INFO "Destroying node and shutting down";
                         DestroyNode;
                         Shutdown ]) /\
     count is_publish_plan h = 1 /\ count is_destroy_node h = 1 /\
     count is_shutdown h = 1 /\
     node_destroyed w = true /\ context_ok w = false /\ in_flight w = []).
Proof.
  intros w h. subst h w.
  pose proof (run_In env fuel events) as Hrun.
  pose proof (main_inv env fuel events) as HI.
  rewrite !run_count by classifier. rewrite run_outbound.
  unfold in_flight.
  rewrite (inv_context _ _ _ _ HI), (inv_destroyed _ _ _ _ HI).
  destruct (main_phase env fuel events);
    (split; [simpl; repeat split; lia|]);
    (split;
     [ intros p m Hin; (apply Hrun in Hin; [|reflexivity..]); split_in Hin;
       suffix_goal
     | split;
       [ intros c t Hin; (apply Hrun in Hin; [|reflexivity..]); split_in Hin;
         reflexivity
       | split;
         [ intros a f Hin; (apply Hrun in Hin; [|reflexivity..]); split_in Hin;
           reflexivity
         | split;
           [ intros msg Hin; (apply Hrun in Hin; [|reflexivity..]); split_in Hin;
             (split;
              [ suffix_goal
              | repeat split; try reflexivity;
                destruct (inv_futures _ _ _ _ HI) as [-> | ->]; reflexivity ])
           | intros f r Hin; (apply Hrun in Hin; [|reflexivity..]); split_in Hin;
             (split;
              [ suffix_goal
              | repeat split; try reflexivity;
                destruct (inv_futures _ _ _ _ HI) as [-> | ->]; reflexivity ]) ]]]]).
Qed.

Lemma shutdown_iff_published_witness :
  (node_destroyed (main env_up 1 happy_events) = true /\
   context_ok (main env_up 1 happy_events) = false /\
   count is_publish_plan (history (main env_up 1 happy_events)) = 1) /\
  (node_destroyed (main env_smooth_down 1 happy_events) = false /\
   context_ok (main env_smooth_down 1 happy_events) = true).
Proof.
  split.
  - destruct (shutdown_iff_published env_up 1 happy_events) as (_ & _ & _ & _ & _ & H).
    destruct (H 4 (SmoothPath.Result.mk P2 Duration.default true))
      as (_ & H1 & _ & _ & H2 & H3 & _).
    + vm_compute. tauto.
    + repeat split; assumption.
  - destruct (shutdown_iff_published env_smooth_down 1 happy_events)
      as (_ & _ & _ & _ & H & _).
    destruct (H "SmoothPath action server not available!")
      as (_ & _ & _ & _ & H1 & H2 & _).
    + vm_compute. tauto.
    + split; assumption.
Defined.

(** C6.  At every point of a run at most one long-running operation is in
    flight; a SmoothPath goal is sent only after the ComputePathThroughPoses
    result was received, and in fact from inside the callback of that
    result: in the essential history the goal follows the delivery of the
    result with only the callback's own log lines and availability wait in
    between. *)
Theorem one_operation_in_flight (env : Env) (fuel : nat) (events : list Event) :
  (forall k, List.length (in_flight (main env fuel (firstn k events))) <= 1) /\
  let h := history (main env fuel events) in
  only_after (is_result_received ComputePathThroughPosesT) (is_send_goal SmoothPathT) h /\
  (forall c g f, In (SendGoal c (SmoothGoal g) f) h ->
     exists l1 l2 f' r,
       essential h
       = l1 ++ [ Recv (KResult ComputePathThroughPosesT) (ResultReady f' (ComputeResult r));
                 Log INFO "Path computed successfully! Sending to SmoothPath";
                 WaitForServer smooth_path_client 10.0 true;
                 Log INFO "Sending path to SmoothPath";
                 SendGoal c (SmoothGoal g) f ] ++ l2).
Proof.
  split; [|split].
  - intros k. unfold in_flight.
    destruct (inv_futures _ _ _ _ (main_inv env fuel (firstn k events))) as [-> | ->];
      destruct (main_phase env fuel (firstn k events)); simpl; lia.
  - apply only_afterb_sound. rewrite run_only_afterb by classifier.
    destruct (main_phase env fuel events); reflexivity.
  - intros c g f Hin. apply run_In in Hin; [|reflexivity..].
    rewrite (inv_history _ _ _ _ (main_inv env fuel events)).
    destruct (main_phase env fuel events); split_in Hin;
      (exists (startup_history env fuel
               ++ seg_start env true ++ seg_path_sent ++ seg_path_accepted);
       do 3 eexists; simpl; rewrite <- app_assoc; simpl; reflexivity).
Qed.

Lemma one_operation_in_flight_witness :
  exists l1 l2 f' r,
    essential (history (main env_up 1 happy_events))
    = l1 ++ [ Recv (KResult ComputePathThroughPosesT) (ResultReady f' (ComputeResult r));
              Log INFO "Path computed successfully! Sending to SmoothPath";
              WaitForServer smooth_path_client 10.0 true;
              Log INFO "Sending path to SmoothPath";
              SendGoal smooth_path_client
                (SmoothGoal (SmoothPath.Goal.set_path P1 SmoothPath.Goal.default)) 3 ]
         ++ l2.
Proof.
  apply (proj2 (proj2 (one_operation_in_flight env_up 1 happy_events))).
  vm_compute. tauto.
Defined.

(** C7 (as amended).  The SetInitialPose request carries frame "map",
    position (0, 4, 0.01), orientation (0, 0, -0.7071068, 0.7071068) and a
    covariance of 36 entries in which the x-variance (index 0) and the
    y-variance (index 7) are 0.25 and the other 34 entries are zero.  A run
    sends at most one request, always this one, and exactly one once the
    startup wait has ended. *)
Theorem initial_pose_request_literals :
  let p := SetInitialPose.Request.pose initial_pose_request in
  let pose := PoseWithCovariance.pose (PoseWithCovarianceStamped.pose p) in
  let cov := PoseWithCovariance.covariance (PoseWithCovarianceStamped.pose p) in
  (Header.frame_id (PoseWithCovarianceStamped.header p) = "map" /\
   Pose.position pose = Point.mk 0 4 0.01 /\
   Pose.orientation pose = Quaternion.mk 0 0 (-0.7071068) 0.7071068 /\
   List.length cov = 36 /\
   nth 0 cov 0%float = 0.25%float /\ nth 7 cov 0%float = 0.25%float /\
   is_zero 0.25 = false /\
   List.length (other_entries cov) = 34 /\
   forallb is_zero (other_entries cov) = true) /\
  forall (env : Env) (fuel : nat) (events : list Event),
    let h := history (main env fuel events) in
    count is_set_initial_pose h <= 1 /\
    (forall c req f, In (CallAsync c req f) h ->
       c = initial_pose_client /\ req = initial_pose_request) /\
    (forall n, service_available env n = true -> n < fuel ->
       count is_set_initial_pose h = 1).
Proof.
  split; [repeat split; reflexivity|].
  intros env fuel events h. subst h.
  pose proof (run_In env fuel events) as Hrun.
  pose proof (main_phase_started env fuel events) as Hst.
  rewrite !run_count by classifier.
  destruct (main_phase env fuel events);
    (split; [simpl; lia|]);
    (split;
     [ intros c req f Hin; (apply Hrun in Hin; [|reflexivity..]); split_in Hin;
       (split; reflexivity)
     | intros n Hn Hfuel; try reflexivity; exfalso; exact (Hst n Hn Hfuel eq_refl) ]).
Qed.

Lemma initial_pose_request_literals_witness :
  count is_set_initial_pose (history (main env_path_down 5 happy_events)) = 1.
Proof.
  destruct initial_pose_request_literals as [_ H].
  destruct (H env_path_down 5 happy_events) as (_ & _ & H1).
  apply (H1 2); [reflexivity|lia].
Defined.

(** C7 (as stated) counts 36 entries besides the two variances; a 6x6
    covariance has 36 entries in all, so the request has 34 others. *)
Lemma covariance_has_not_36_other_entries :
  let cov := PoseWithCovariance.covariance
               (PoseWithCovarianceStamped.pose
                  (SetInitialPose.Request.pose initial_pose_request)) in
  List.length cov = 36 /\
  ~ (List.length (other_entries cov) = 36 /\ forallb is_zero (other_entries cov) = true).
Proof.
  split; [reflexivity|]. intros [H _]. vm_compute in H. discriminate H.
Qed.

(** C8.  The ComputePathThroughPoses goal holds exactly two waypoints, in
    the order of the literal list: (0.0, 2.0) first, (-0.8, 0.0) second,
    each with frame "map" and orientation (0, 0, -0.7071068, 0.7071068).  A
    run sends at most one goal on that action, always this one, and exactly
    one once the startup wait has ended with the path server up. *)
Theorem path_goal_waypoints :
  let waypoint x y :=
    PoseStamped.mk (Header.mk Time.default "map")
      (Pose.mk (Point.mk x y 0) (Quaternion.mk 0 0 (-0.7071068) 0.7071068)) in
  ComputePathThroughPoses.Goal.goals path_goal
    = [waypoint 0.0 2.0; waypoint (-0.8) 0.0]%float /\
  forall (env : Env) (fuel : nat) (events : list Event),
    let h := history (main env fuel events) in
    count (is_send_goal ComputePathThroughPosesT) h <= 1 /\
    (forall c g f, In (SendGoal c g f) h -> action_type c = ComputePathThroughPosesT ->
       c = path_action_client /\ g = ComputeGoal path_goal) /\
    (forall n, service_available env n = true -> n < fuel ->
       server_available env ComputePathThroughPosesT = true ->
       count (is_send_goal ComputePathThroughPosesT) h = 1).
Proof.
  split; [reflexivity|].
  intros env fuel events h. subst h.
  pose proof (run_In env fuel events) as Hrun.
  pose proof (main_phase_started env fuel events) as Hst.
  pose proof (inv_answers _ _ _ _ (main_inv env fuel events)) as Ha.
  rewrite !run_count by classifier.
  destruct (main_phase env fuel events); simpl in Ha;
    (split; [simpl; lia|]);
    (split;
     [ intros c g f Hin Hc; (apply Hrun in Hin; [|reflexivity..]); split_in Hin;
       try discriminate Hc; (split; reflexivity)
     | intros n Hn Hfuel Hup; try reflexivity; try congruence;
       exfalso; exact (Hst n Hn Hfuel eq_refl) ]).
Qed.

Lemma path_goal_waypoints_witness :
  count (is_send_goal ComputePathThroughPosesT) (history (main env_up 1 happy_events)) = 1.
Proof.
  destruct path_goal_waypoints as [_ H].
  destruct (H env_up 1 happy_events) as (_ & _ & H1).
  apply (H1 0); [reflexivity|lia|reflexivity].
Defined.

(** C9 (as amended).  A run never publishes more than one People message,
    and once the startup wait has ended it publishes exactly one; it goes
    to /people and holds the frame "map", the clock reading, and the single
    person "person1" at the origin with velocity (0, 1, 0).  Publishing
    creates no future: nothing is awaited for it. *)
Theorem people_published_once (env : Env) (fuel : nat) (events : list Event) :
  let h := history (main env fuel events) in
  count is_publish_people h <= 1 /\
  (forall p m, In (Publish p (PeopleMsg m)) h ->
     p = people_publisher /\
     m = People.mk (Header.mk (clock_now env) "map")
           [Person.mk "person1" (Point.mk 0 0 0) (Point.mk 0 1 0) 0 [] []]) /\
  (forall n, service_available env n = true -> n < fuel ->
     count is_publish_people h = 1) /\
  (forall w, futures (exec (publish_people env) w) = futures w).
Proof.
  intros h. subst h.
  pose proof (run_In env fuel events) as Hrun.
  pose proof (main_phase_started env fuel events) as Hst.
  rewrite !run_count by classifier.
  destruct (main_phase env fuel events);
    (split; [simpl; lia|]);
    (split;
     [ intros p m Hin; (apply Hrun in Hin; [|reflexivity..]); split_in Hin;
       (split; reflexivity)
     | split;
       [ intros n Hn Hfuel; try reflexivity; exfalso; exact (Hst n Hn Hfuel eq_refl)
       | intros w; reflexivity ] ]).
Qed.

Lemma people_published_once_witness :
  count is_publish_people (history (main env_path_down 5 happy_events)) = 1.
Proof.
  destruct (people_published_once env_path_down 5 happy_events) as (_ & _ & H & _).
  apply (H 2); [reflexivity|lia].
Defined.

(** C9 (as stated) fails for a run that never leaves the startup wait:
    while /set_initial_pose does not answer, the constructor is still in
    its loop and no People message is published, however many probes are
    observed and whatever is delivered. *)
Lemma no_people_while_service_down :
  count is_publish_people (history (main env_never 5 happy_events)) = 0 /\
  count is_publish_people (history (main env_never 5 happy_events)) <> 1 /\
  count is_wait_for_service (history (main env_never 5 happy_events)) = 5.
Proof.
  split; [reflexivity|]. split; [|reflexivity].
  intros H. vm_compute in H. discriminate H.
Qed.

(** ** Determinism *)



Lemma startup_history_ready (env : Env) (n fuel : nat) :
  service_available env n = true ->
  (forall k, k < n -> service_available env k = false) ->
  n < fuel ->
  startup_history env fuel = startup_log n.
Proof.
  intros Hn Hlt Hfuel. unfold startup_history.
  destruct (wait_loop_ready env n fuel world0) as [_ Hh]; simpl; auto.
Qed.



(** ** Beyond the claims: the startup wait *)

Lemma wait_loop_never (env : Env) (fuel : nat) (w : World) :
  (forall k, k < fuel -> service_available env (probes w + k) = false) ->
  fst (wait_for_initial_pose_service env fuel w) = false /\
  history (snd (wait_for_initial_pose_service env fuel w)) = history w ++ waiting_log fuel.
Proof.
  revert w. induction fuel as [|fuel IH]; intros w Hlt; simpl.
  - rewrite app_nil_r. split; reflexivity.
  - unfold bind, wait_for_service. simpl.
    assert (H0 : service_available env (probes w) = false).
    { rewrite <- (Nat.add_0_r (probes w)). apply Hlt. lia. }
    rewrite H0. simpl. unfold get_logger_info, emit. simpl.
    match goal with |- context [wait_for_initial_pose_service env fuel ?w'] =>
      destruct (IH w') as [Hb Hh] end; simpl.
    + intros k Hk. specialize (Hlt (S k)). rewrite Nat.add_succ_r in Hlt.
      apply Hlt. lia.
    + split; [exact Hb|]. rewrite Hh. simpl. rewrite <- !app_assoc. reflexivity.
Qed.

(** X1.  While /set_initial_pose does not answer, nothing else happens: in
    a run all of whose observed probes fail, the history is one probe with
    timeout 1.0 and one "waiting" log line per probe, no future exists, and
    no completion is ever processed, whatever is delivered. *)
Theorem nothing_before_service_available (env : Env) (fuel : nat) (events : list Event) :
  (forall k, k < fuel -> service_available env k = false) ->
  let w := main env fuel events in
  history w = waiting_log fuel /\ futures w = [] /\ next_future w = 0 /\
  context_ok w = true /\ node_destroyed w = false.
Proof.
  intros Hdown w. subst w.
  destruct (wait_loop_never env fuel world0 Hdown) as [Hb Hh].
  destruct (wait_loop_frame env fuel world0) as (Hf & Hn & Hc & Hd & _).
  unfold main. rewrite init_returns, Hb.
  unfold __init__, bind. rewrite Hb. simpl in *.
  repeat split; assumption.
Qed.

Lemma nothing_before_service_available_witness :
  history (main env_never 2 happy_events) = waiting_log 2.
Proof.
  refine (proj1 (nothing_before_service_available env_never 2 happy_events _)).
  intros k _. reflexivity.
Defined.

Lemma count_startup_log (n : nat) :
  count is_wait_for_service (startup_log n) = S n /\
  count is_waiting_log (startup_log n) = n.
Proof.
  induction n as [|n [IH1 IH2]]; simpl; [split; reflexivity|].
  rewrite IH1, IH2. split; reflexivity.
Qed.

(** X2.  When the service first answers at probe [n], the node has made
    exactly [n + 1] probes and logged exactly [n] "waiting" lines, and the
    sequence starts right after the successful probe: the outbound history
    is the startup log followed by the SetInitialPose request. *)
Theorem startup_probes_counted (env : Env) (n fuel : nat) (events : list Event) :
  service_available env n = true ->
  (forall k, k < n -> service_available env k = false) ->
  n < fuel ->
  let h := history (main env fuel events) in
  count is_wait_for_service h = S n /\
  count is_waiting_log h = n /\
  exists rest,
    outbound h
    = startup_log n ++ CallAsync initial_pose_client initial_pose_request 0 :: rest.
Proof.
  intros Hn Hlt Hfuel h. subst h.
  pose proof (main_inv env fuel events) as HI.
  pose proof (main_phase_started env fuel events n Hn Hfuel) as Hst.
  pose proof (inv_history _ _ _ _ HI) as Hh.
  rewrite (startup_history_ready env n fuel Hn Hlt Hfuel) in Hh.
  rewrite run_outbound, (startup_history_ready env n fuel Hn Hlt Hfuel).
  rewrite <- (count_filter is_wait_for_service (fun e => negb (is_service_recv e)))
    by (intros [| | | | | | |[] ?| |]; simpl; intros; try discriminate; reflexivity).
  rewrite <- (count_filter is_waiting_log (fun e => negb (is_service_recv e)))
    by (intros [| | | | | | |[] ?| |]; simpl; intros; try discriminate; reflexivity).
  fold (essential (history (main env fuel events))). rewrite Hh, !count_app.
  destruct (count_startup_log n) as [-> ->].
  destruct (main_phase env fuel events); try (exfalso; apply Hst; reflexivity);
    (split; [simpl; lia|split; [simpl; lia|eexists; simpl; reflexivity]]).
Qed.

Lemma startup_probes_counted_witness :
  count is_waiting_log (history (main env_path_down 5 happy_events)) = 2.
Proof.
  refine (proj1 (proj2 (startup_probes_counted env_path_down 2 5 happy_events _ _ _))).
  - reflexivity.
  - intros [|[|k]] Hk; [reflexivity|reflexivity|lia].
  - lia.
Defined.

(** ** Beyond the claims: the failures of the smoothing step *)

(** X3.  When the ComputePathThroughPoses result has been received and the
    SmoothPath server is not available within its 10 second wait, the
    callback logs the error and returns: the outbound history ends with the
    wait and the error log, no SmoothPath goal is sent, nothing is
    published, and the node stays up with nothing in flight. *)
Theorem smooth_server_timeout_halts (env : Env) (fuel : nat) (events : list Event)
    (f : Future) (r : ComputePathThroughPoses.Result.t) :
  let w := main env fuel events in
  In (Recv (KResult ComputePathThroughPosesT) (ResultReady f (ComputeResult r))) (history w) ->
  server_available env SmoothPathT = false ->
  (exists l, outbound (history w)
             = l ++ [ Log INFO "Path computed successfully! Sending to SmoothPath";
                      WaitForServer smooth_path_client 10.0 false;
                      Log ERROR "SmoothPath action server not available!" ]) /\
  count (is_send_goal SmoothPathT) (history w) = 0 /\
  count is_publish_plan (history w) = 0 /\
  in_flight w = [] /\ context_ok w = true /\ node_destroyed w = false.
Proof.
  intros w Hin Hdown. subst w.
  pose proof (main_inv env fuel events) as HI.
  apply run_In in Hin; [|reflexivity..].
  rewrite !run_count by classifier. rewrite run_outbound.
  unfold in_flight.
  rewrite (inv_context _ _ _ _ HI), (inv_destroyed _ _ _ _ HI).
  pose proof (inv_answers _ _ _ _ HI) as Ha.
  destruct (main_phase env fuel events); simpl in Ha; split_in Hin;
    try (destruct Ha; congruence);
    (split; [suffix_goal|]);
    (repeat split; try reflexivity);
    (destruct (inv_futures _ _ _ _ HI) as [-> | ->]; reflexivity).
Qed.

Lemma smooth_server_timeout_halts_witness :
  count (is_send_goal SmoothPathT) (history (main env_smooth_down 1 happy_events)) = 0 /\
  context_ok (main env_smooth_down 1 happy_events) = true.
Proof.
  destruct (smooth_server_timeout_halts env_smooth_down 1 happy_events 2
              (ComputePathThroughPoses.Result.mk P1 Duration.default))
    as (_ & H1 & _ & _ & H2 & _).
  - vm_compute. tauto.
  - reflexivity.
  - split; assumption.
Defined.

(** X4.  When the rejection of the SmoothPath goal is delivered, the
    callback logs the error and returns: the error log is the last entry of
    the essential history, no result is requested from SmoothPath, nothing
    is published, and the node stays up with nothing in flight. *)
Theorem smooth_goal_rejected_halts (env : Env) (fuel : nat) (events : list Event)
    (f : Future) :
  let w := main env fuel events in
  In (Recv (KGoal SmoothPathT) (GoalResponse f false)) (history w) ->
  (exists l, essential (history w)
             = l ++ [ Recv (KGoal SmoothPathT) (GoalResponse f false);
                      Log ERROR "SmoothPath goal was rejected!" ]) /\
  count (is_get_result SmoothPathT) (history w) = 0 /\
  count is_publish_plan (history w) = 0 /\
  count is_destroy_node (history w) = 0 /\
  in_flight w = [] /\ context_ok w = true /\ node_destroyed w = false.
Proof.
  intros w Hin. subst w.
  pose proof (main_inv env fuel events) as HI.
  apply run_In in Hin; [|reflexivity..].
  rewrite !run_count by classifier.
  rewrite (inv_history _ _ _ _ HI).
  unfold in_flight.
  rewrite (inv_context _ _ _ _ HI), (inv_destroyed _ _ _ _ HI).
  destruct (main_phase env fuel events); split_in Hin;
    (split; [suffix_goal|]);
    (repeat split; try reflexivity);
    (destruct (inv_futures _ _ _ _ HI) as [-> | ->]; reflexivity).
Qed.

Lemma smooth_goal_rejected_halts_witness :
  count is_publish_plan
    (history (main env_up 1
                [ GoalResponse 1 true;
                  ResultReady 2 (ComputeResult
                                   (ComputePathThroughPoses.Result.mk P1 Duration.default));
                  GoalResponse 3 false ])) = 0.
Proof.
  refine (proj1 (proj2 (proj2 (smooth_goal_rejected_halts env_up 1 _ 3 _)))).
  vm_compute. tauto.
Defined.

(** ** Beyond the claims: completion, shutdown and failure are final *)

(** X5.  The whole sequence completes without the SetInitialPose response.
    When the startup wait has ended, both action servers are up, and the
    goal responses and results delivered are, in order, the acceptance of
    the path goal, a path result [r1], the acceptance of the smoothing goal
    and a smoothing result [r2] (SetInitialPose responses may arrive
    anywhere in between, or never), the path of [r1] is sent to SmoothPath,
    the path of [r2] is published to /plan, and the node shuts down with
    nothing in flight. *)
Theorem happy_path_completes (env : Env) (n fuel : nat) (events : list Event)
    (r1 : ComputePathThroughPoses.Result.t) (r2 : SmoothPath.Result.t) :
  service_available env n = true -> n < fuel ->
  server_available env ComputePathThroughPosesT = true ->
  server_available env SmoothPathT = true ->
  filter is_action_event events
  = [ GoalResponse 1 true; ResultReady 2 (ComputeResult r1);
      GoalResponse 3 true; ResultReady 4 (SmoothResult r2) ] ->
  let w := main env fuel events in
  In (SendGoal smooth_path_client
        (SmoothGoal (SmoothPath.Goal.set_path (ComputePathThroughPoses.Result.path r1)
                       SmoothPath.Goal.default)) 3) (history w) /\
  In (Publish plan_publisher (PathMsg (SmoothPath.Result.path r2))) (history w) /\
  count is_publish_plan (history w) = 1 /\
  count is_error_log (history w) = 0 /\
  in_flight w = [] /\ context_ok w = false /\ node_destroyed w = true.
Proof.
  intros Hn Hfuel Hpath Hsmooth Hevs w. subst w.
  assert (Hph : main_phase env fuel events = Terminated r1 r2).
  { unfold main_phase. rewrite (constructor_returns env n fuel Hn Hfuel).
    rewrite phase_run_action_events, Hevs. unfold phase_start. rewrite Hpath.
    simpl. rewrite Hsmooth. reflexivity. }
  pose proof (main_inv env fuel events) as HI.
  rewrite !run_count by classifier.
  rewrite !(run_In env fuel events) by reflexivity.
  unfold in_flight.
  rewrite (inv_context _ _ _ _ HI), (inv_destroyed _ _ _ _ HI).
  destruct (inv_futures _ _ _ _ HI) as [-> | ->]; rewrite Hph;
    (repeat split; try reflexivity; in_list).
Qed.

Lemma happy_path_completes_witness :
  In (Publish plan_publisher (PathMsg P2)) (history (main env_up 1 happy_events)) /\
  context_ok (main env_up 1 happy_events) = false.
Proof.
  destruct (happy_path_completes env_up 0 1 happy_events
              (ComputePathThroughPoses.Result.mk P1 Duration.default)
              (SmoothPath.Result.mk P2 Duration.default true)
              eq_refl ltac:(lia) eq_refl eq_refl eq_refl)
    as (_ & H1 & _ & _ & _ & H2 & _).
  split; assumption.
Defined.

Lemma spin_stopped (env : Env) (events : list Event) (w : World) :
  context_ok w = false -> spin env events w = w.
Proof. intros Hw. destruct events; simpl; [reflexivity|]. rewrite Hw. reflexivity. Qed.

Lemma spin_app (env : Env) (evs1 evs2 : list Event) (w : World) :
  spin env (evs1 ++ evs2) w = spin env evs2 (spin env evs1 w).
Proof.
  revert w. induction evs1 as [|ev evs1 IH]; intros w; simpl; [reflexivity|].
  destruct (context_ok w) eqn:Hw; [apply IH|].
  rewrite spin_stopped by exact Hw. reflexivity.
Qed.

Lemma spin_after_shutdown (env : Env) (fuel : nat) (events more : list Event) :
  context_ok (main env fuel events) = false ->
  main env fuel (events ++ more) = main env fuel events.
Proof.
  unfold main. destruct (fst (__init__ env fuel world0)); [|reflexivity].
  intros Hw. rewrite spin_app. apply spin_stopped. exact Hw.
Qed.

(** X6.  Publishing the plan ends the run: on_path_smoothed shuts the
    context down right after the publish, so once a path has been published
    the run stays exactly as it is, whatever is delivered afterwards, the
    SetInitialPose response included. *)
Theorem published_run_is_over (env : Env) (fuel : nat) (events more : list Event)
    (p : Publisher) (m : Path.t) :
  In (Publish p (PathMsg m)) (history (main env fuel events)) ->
  context_ok (main env fuel events) = false /\
  main env fuel (events ++ more) = main env fuel events.
Proof.
  intros Hin.
  assert (Hok : context_ok (main env fuel events) = false).
  { pose proof (main_inv env fuel events) as HI.
    rewrite (inv_context _ _ _ _ HI).
    apply run_In in Hin; [|reflexivity..].
    destruct (main_phase env fuel events); split_in Hin; reflexivity. }
  split; [exact Hok|]. apply spin_after_shutdown. exact Hok.
Qed.

Lemma published_run_is_over_witness :
  main env_up 1 (filter is_action_event happy_events ++ [ServiceResponse 0; GoalResponse 1 false])
  = main env_up 1 (filter is_action_event happy_events).
Proof.
  refine (proj2 (published_run_is_over env_up 1 (filter is_action_event happy_events)
                   [ServiceResponse 0; GoalResponse 1 false] plan_publisher P2 _)).
  vm_compute. tauto.
Defined.

Lemma phase_run_failed (env : Env) (evs : list Event) (ph : Phase) :
  is_failed ph = true -> phase_run env evs ph = ph.
Proof.
  intros Hph. induction evs as [|ev evs IH]; [reflexivity|].
  change (phase_run env (ev :: evs) ph) with (phase_run env evs (phase_step env ph ev)).
  replace (phase_step env ph ev) with ph; [exact IH|].
  destruct ph; try discriminate Hph; destruct ev; reflexivity.
Qed.

Lemma main_phase_app (env : Env) (fuel : nat) (evs1 evs2 : list Event) :
  main_phase env fuel (evs1 ++ evs2)
  = if fst (wait_for_initial_pose_service env fuel world0)
    then phase_run env evs2 (main_phase env fuel evs1)
    else Initializing.
Proof.
  unfold main_phase, phase_run.
  destruct (fst (wait_for_initial_pose_service env fuel world0)); [|reflexivity].
  apply fold_left_app.
Qed.

(** X7.  A failure is final too: once an error has been logged, nothing
    delivered later makes the node do anything; the outbound history stays
    as it was, no operation is in flight, and the node is still up. *)
Theorem failure_is_absorbing (env : Env) (fuel : nat) (events more : list Event)
    (msg : string) :
  In (Log ERROR msg) (history (main env fuel events)) ->
  let w := main env fuel (events ++ more) in
  outbound (history w) = outbound (history (main env fuel events)) /\
  in_flight w = [] /\ context_ok w = true /\ node_destroyed w = false.
Proof.
  intros Hin w. subst w.
  apply run_In in Hin; [|reflexivity..].
  assert (Hfail : is_failed (main_phase env fuel events) = true).
  { destruct (main_phase env fuel events); split_in Hin; reflexivity. }
  assert (Hph : main_phase env fuel (events ++ more) = main_phase env fuel events).
  { rewrite main_phase_app.
    destruct (fst (wait_for_initial_pose_service env fuel world0)) eqn:Hup.
    - apply phase_run_failed. exact Hfail.
    - unfold main_phase in Hfail. rewrite Hup in Hfail. discriminate Hfail. }
  pose proof (main_inv env fuel (events ++ more)) as HI.
  rewrite !run_outbound, Hph. unfold in_flight.
  rewrite (inv_context _ _ _ _ HI), (inv_destroyed _ _ _ _ HI).
  destruct (inv_futures _ _ _ _ HI) as [-> | ->]; rewrite Hph;
    destruct (main_phase env fuel events); try discriminate Hfail;
    repeat split; reflexivity.
Qed.

Lemma failure_is_absorbing_witness :
  outbound (history (main env_up 1 ([GoalResponse 1 false] ++ happy_events)))
  = outbound (history (main env_up 1 [GoalResponse 1 false])).
Proof.
  refine (proj1 (failure_is_absorbing env_up 1 [GoalResponse 1 false] happy_events
                   "ComputePathThroughPoses goal was rejected!" _)).
  vm_compute. tauto.
Defined.

(** ** Beyond the claims: what a run does at most once *)

(** X8.  On either action, the result is requested exactly when the goal
    was accepted: a run holds as many get_result requests as delivered
    acceptances, each request comes after the acceptance, a goal gets at
    most one response, and a rejected goal is never asked for its result. *)
Theorem result_requested_iff_accepted (env : Env) (fuel : nat) (events : list Event)
    (a : ActionType) :
  let h := history (main env fuel events) in
  count (is_get_result a) h = count (is_goal_accepted a) h /\
  only_after (is_goal_accepted a) (is_get_result a) h /\
  count (is_goal_accepted a) h + count (is_goal_rejected a) h <= count (is_send_goal a) h /\
  (0 < count (is_goal_rejected a) h -> count (is_get_result a) h = 0).
Proof.
  intros h. subst h.
  split; [|split; [|split]].
  - rewrite !run_count by classifier.
    destruct a, (main_phase env fuel events); reflexivity.
  - apply only_afterb_sound. rewrite run_only_afterb by classifier.
    destruct a, (main_phase env fuel events); reflexivity.
  - rewrite !run_count by classifier.
    destruct a, (main_phase env fuel events); simpl; lia.
  - rewrite !run_count by classifier.
    destruct a, (main_phase env fuel events); simpl; lia.
Qed.

Lemma result_requested_iff_accepted_witness :
  count (is_get_result ComputePathThroughPosesT)
    (history (main env_up 1 [GoalResponse 1 false])) = 0.
Proof.
  apply (result_requested_iff_accepted env_up 1 [GoalResponse 1 false]
           ComputePathThroughPosesT).
  vm_compute. lia.
Defined.

(** X9.  Nothing is retried, and nothing is sent unasked.  In any run each
    action server is waited for at most once; a goal is sent on an action
    only after the wait on that action, at most once, and never when the
    wait answered false; a result is requested only after the goal was
    sent; at most one error is logged, and an error excludes the
    publication of a plan. *)
Theorem nothing_is_retried (env : Env) (fuel : nat) (events : list Event)
    (a : ActionType) :
  let h := history (main env fuel events) in
  (count (is_wait_for_server a) h <= 1 /\
   count (is_send_goal a) h <= count (is_wait_for_server a) h /\
   count (is_get_result a) h <= count (is_send_goal a) h /\
   count is_error_log h <= 1 /\
   count is_error_log h + count is_publish_plan h <= 1) /\
  only_after (is_wait_for_server a) (is_send_goal a) h /\
  only_after (is_send_goal a) (is_get_result a) h /\
  (forall c t, In (WaitForServer c t false) h -> action_type c = a ->
     count (is_send_goal a) h = 0) /\
  (server_available env a = false -> count (is_send_goal a) h = 0).
Proof.
  intros h. subst h.
  split; [|split; [|split; [|split]]].
  - rewrite !run_count by classifier.
    destruct a, (main_phase env fuel events); simpl; lia.
  - apply only_afterb_sound. rewrite run_only_afterb by classifier.
    destruct a, (main_phase env fuel events); reflexivity.
  - apply only_afterb_sound. rewrite run_only_afterb by classifier.
    destruct a, (main_phase env fuel events); reflexivity.
  - intros c t Hin Hc. apply run_In in Hin; [|reflexivity..].
    rewrite run_count by classifier.
    destruct (main_phase env fuel events); split_in Hin;
      try (simpl in Hc; subst a); reflexivity.
  - intros Hdown. rewrite run_count by classifier.
    pose proof (inv_answers _ _ _ _ (main_inv env fuel events)) as Ha.
    destruct a, (main_phase env fuel events); simpl in Ha;
      try reflexivity; try congruence; destruct Ha; congruence.
Qed.

Lemma nothing_is_retried_witness :
  count (is_send_goal SmoothPathT) (history (main env_smooth_down 1 happy_events)) = 0 /\
  count (is_send_goal ComputePathThroughPosesT)
    (history (main env_path_down 5 happy_events)) = 0.
Proof.
  split.
  - destruct (nothing_is_retried env_smooth_down 1 happy_events SmoothPathT)
      as (_ & _ & _ & H & _).
    apply (H smooth_path_client 10.0%float); [|reflexivity].
    vm_compute. tauto.
  - destruct (nothing_is_retried env_path_down 5 happy_events ComputePathThroughPosesT)
      as (_ & _ & _ & _ & H).
    apply H. reflexivity.
Defined.

(** ** Beyond the claims: the waypoint loop *)

(** X10.  The loop of compute_path_through_poses keeps the order of any
    list of (x, y) pairs: it appends to the goals one pose per pair, in list
    order, each with frame "map", position (x, y, 0) and orientation
    (0, 0, -0.7071068, 0.7071068), and leaves the goals already present and
    the other fields of the goal untouched. *)
Theorem waypoint_loop_in_order (l : list (float * float))
    (goal_msg : ComputePathThroughPoses.Goal.t) :
  let waypoint (xy : float * float) :=
    PoseStamped.mk (Header.mk Time.default "map")
      (Pose.mk (Point.mk (fst xy) (snd xy) 0) (Quaternion.mk 0 0 (-0.7071068) 0.7071068)) in
  let g := fold_left append_waypoint l goal_msg in
  ComputePathThroughPoses.Goal.goals g
    = ComputePathThroughPoses.Goal.goals goal_msg ++ map waypoint l /\
  ComputePathThroughPoses.Goal.start g = ComputePathThroughPoses.Goal.start goal_msg /\
  ComputePathThroughPoses.Goal.planner_id g
    = ComputePathThroughPoses.Goal.planner_id goal_msg /\
  ComputePathThroughPoses.Goal.use_start g
    = ComputePathThroughPoses.Goal.use_start goal_msg.
Proof.
  revert goal_msg. induction l as [|[x y] l IH]; intros goal_msg; simpl.
  - rewrite app_nil_r. repeat split.
  - destruct (IH (append_waypoint goal_msg (x, y))) as (H1 & H2 & H3 & H4).
    simpl in *. rewrite H1, H2, H3, H4, <- app_assoc. repeat split.
Qed.
